(** * Route lineage classifier (scripts/main.py, class RouteAnalyzer)

    A shallow embedding of [RouteAnalyzer.prepare_data],
    [RouteAnalyzer.compare_and_update_routes], [RouteAnalyzer.analyze_routes],
    [RouteAnalyzer.save_to_file], [RouteAnalyzer.insert_data] and
    [RouteAnalyzer.run], with the properties of the specification stated
    and proved over it.

    The DataFrame is a list of rows addressed by position (the frame has a
    RangeIndex after [reset_index(drop=True)], so [loc] and [iloc] agree).
    A cell that may hold Python's [None] / pandas' [NaT] is an [option]. *)

From Stdlib Require Import ZArith String Ascii Bool Lia.
From Stdlib Require Import Sorting.Sorted Sorting.Permutation.
From stdpp Require Import base option list strings gmap.

Local Open Scope string_scope.
Local Open Scope Z_scope.

(** ** Calendar dates ([datetime.date]) *)

Record date := mkDate { year : Z; month : Z; day : Z }.

(** [date.__eq__] *)
Definition date_eqb (a b : date) : bool :=
  (year a =? year b) && (month a =? month b) && (day a =? day b).

(** [date.__lt__]: lexicographic on (year, month, day). *)
Definition date_ltb (a b : date) : bool :=
  (year a <? year b)
  || ((year a =? year b)
      && ((month a <? month b) || ((month a =? month b) && (day a <? day b)))).

Definition date_leb (a b : date) : bool := date_ltb a b || date_eqb a b.

(** ** pandas / Python primitives used by the program *)

(** Scalar [==] on two cells of the [route_min_date] column, which holds
    [datetime.date] objects and [NaT] (here [None]): [NaT == x] is [False]
    for every [x], [NaT] included. *)
Definition py_date_eq (a b : option date) : bool :=
  match a, b with
  | Some x, Some y => date_eqb x y
  | _, _ => false
  end.

(** Scalar [!=] of Python on two cells holding a [str] or [None]. *)
Definition py_ne (a b : option string) : bool :=
  match a, b with
  | Some x, Some y => negb (String.eqb x y)
  | None, None => false
  | _, _ => true
  end.

(** Element-wise [==] of two object Series: a position where either side is
    null compares [False]. *)
Definition series_eq (a b : option string) : bool :=
  match a, b with
  | Some x, Some y => String.eqb x y
  | _, _ => false
  end.

(** [pd.isna] on a cell holding a [str] or [None]. *)
Definition pd_isna (c : option string) : bool :=
  match c with
  | None => true
  | Some _ => false
  end.

(** The f-string conversion of a cell, as in f"{value}". *)
Definition py_format (c : option string) : string :=
  match c with
  | Some s => s
  | None => "None"
  end.

(** [sep.join(items)] *)
Definition join (sep : string) (items : list string) : string :=
  String.concat sep items.

(** ** The data model *)

Inductive category :=
  | NEW        (* 'Новый маршрут' *)
  | CHANGED.   (* 'Изменение в маршруте' *)

Definition category_text (c : category) : string :=
  match c with
  | NEW => "Новый маршрут"
  | CHANGED => "Изменение в маршруте"
  end.

(** The columns read by the classifier. The four integer columns are those
    [prepare_data] casts to Int64 ([None] is [pd.NA]). *)
Record RouteData := mkRouteData {
  text_route_number : string;
  type_of_transportation : option string;
  route_min_date : option date;
  departure_station_code_of_rf : option string;
  destination_station_code_of_rf : option string;
  payer_of_the_railway_tariff_unified : option string;
  shipper_okpo : option string;
  consignee_okpo : option string;
  departure_station_of_the_rf : option string;
  rf_destination_station : option string;
  shipper_by_puzt : option string;
  consignee_by_puzt : option string;
  text_route_number_count : option Z;
  route_month : option Z;
  route_year : option Z;
  teu : option Z
}.

(** The four columns added by [prepare_data] and written by the classifier. *)
Record Lineage := mkLineage {
  category_route : category;
  old_text_route_number : option string;
  changed_field : option string;
  old_value_field : option string
}.

Record Row := mkRow { data : RouteData; lineage : Lineage }.

(** The frame: its rows, by position. *)
Abbreviation DataFrame := (list Row).

(** [self.key_columns], in the order of the source. *)
Inductive key_column :=
  | departure_code
  | destination_code
  | payer
  | shipper
  | consignee.

Definition key_columns : list key_column :=
  [departure_code; destination_code; payer; shipper; consignee].

Definition column_name (k : key_column) : string :=
  match k with
  | departure_code => "departure_station_code_of_rf"
  | destination_code => "destination_station_code_of_rf"
  | payer => "payer_of_the_railway_tariff_unified"
  | shipper => "shipper_okpo"
  | consignee => "consignee_okpo"
  end.

(** [route[k]] for a key column [k]. *)
Definition key_value (k : key_column) (r : RouteData) : option string :=
  match k with
  | departure_code => departure_station_code_of_rf r
  | destination_code => destination_station_code_of_rf r
  | payer => payer_of_the_railway_tariff_unified r
  | shipper => shipper_okpo r
  | consignee => consignee_okpo r
  end.

(** [route[self.old_value_mapping.get(k, k)]]: the mapping has an entry for
    each of the five key columns, so the default of [get] is never used. *)
Definition old_value_mapping (k : key_column) (r : RouteData) : option string :=
  match k with
  | departure_code => departure_station_of_the_rf r
  | destination_code => rf_destination_station r
  | payer => payer_of_the_railway_tariff_unified r
  | shipper => shipper_by_puzt r
  | consignee => consignee_by_puzt r
  end.

Definition MIN_MATCHING_KEY_THRESHOLD : Z := 3.

(** ** compare_and_update_routes *)

(** [matching_values]: the Series indexed by the key columns holding 1 where
    the two routes agree and 0 where they do not. *)
Definition matching_values (current_route previous_route : RouteData)
  : list (key_column * Z) :=
  map (fun k =>
         (k, if series_eq (key_value k current_route) (key_value k previous_route)
             then 1 else 0))
      key_columns.

(** [matching_values.sum()] *)
Definition series_sum (s : list (key_column * Z)) : Z :=
  fold_right (fun kv acc => snd kv + acc) 0 s.

(** [matching_values[matching_values == 0].index.tolist()] *)
Definition zero_index (s : list (key_column * Z)) : list key_column :=
  map fst (List.filter (fun kv => snd kv =? 0) s).

Definition key_column_eqb (a b : key_column) : bool :=
  match a, b with
  | departure_code, departure_code | destination_code, destination_code
  | payer, payer | shipper, shipper | consignee, consignee => true
  | _, _ => false
  end.

(** [matching_values[k]]; every key column is in the index. *)
Fixpoint series_get (s : list (key_column * Z)) (k : key_column) : Z :=
  match s with
  | [] => 0
  | (k', v) :: s' => if key_column_eqb k' k then v else series_get s' k
  end.

(** The three cells written together when the predecessor is recorded. *)
Definition record_predecessor (previous_route : RouteData)
    (changed_fields : list key_column) (l : Lineage) : Lineage :=
  {| category_route := category_route l;
     old_text_route_number := Some (text_route_number previous_route);
     changed_field := Some (join ", " (map column_name changed_fields));
     old_value_field :=
       Some (join ", "
               (map (fun field => py_format (old_value_mapping field previous_route))
                    changed_fields)) |}.

Definition set_lineage (l : Lineage) (r : Row) : Row :=
  {| data := data r; lineage := l |}.

(** [None] stands for the IndexError of [df.iloc] on a position outside the
    frame. The result is the frame after the call and the returned bool. *)
Definition compare_and_update_routes (df : DataFrame)
    (current_index previous_index : nat) : option (DataFrame * bool) :=
  match df !! current_index, df !! previous_index with
  | Some current_row, Some previous_row =>
    let current_route := data current_row in
    let previous_route := data previous_row in
    if py_date_eq (route_min_date current_route) (route_min_date previous_route)
    then Some (df, false)
    else if py_ne (type_of_transportation current_route)
                  (type_of_transportation previous_route)
    then Some (df, false)
    else
      let mv := matching_values current_route previous_route in
      if series_sum mv <? MIN_MATCHING_KEY_THRESHOLD
      then Some (df, false)
      else
        let df' :=
          (* df.loc[current_index, ...] reads the row [df.iloc] returned *)
          if pd_isna (old_text_route_number (lineage current_row))
          then
            let changed_fields := zero_index mv in
            <[current_index :=
                set_lineage (record_predecessor previous_route changed_fields
                                                (lineage current_row))
                            current_row]> df
          else df in
        Some (df', (series_get mv departure_code =? 1)
                   && (series_get mv destination_code =? 1))
  | _, _ => None
  end.

(** ** analyze_routes *)

Definition set_category (c : category) (r : Row) : Row :=
  {| data := data r;
     lineage := {| category_route := c;
                   old_text_route_number := old_text_route_number (lineage r);
                   changed_field := changed_field (lineage r);
                   old_value_field := old_value_field (lineage r) |} |}.

(** The inner loop [for j in reversed(range(i))], with [n] candidates left:
    the next candidate is [n - 1]; a [True] from the comparison sets the
    category and breaks. *)
Fixpoint scan_previous (df : DataFrame) (i n : nat) : option DataFrame :=
  match n with
  | O => Some df
  | S j =>
    match compare_and_update_routes df i j with
    | None => None
    | Some (df', true) => Some (alter (set_category CHANGED) i df')
    | Some (df', false) => scan_previous df' i j
    end
  end.

(** The outer loop over the positions [is]. *)
Fixpoint analyze_from (df : DataFrame) (positions : list nat) : option DataFrame :=
  match positions with
  | [] => Some df
  | i :: rest =>
    match scan_previous df i i with
    | None => None
    | Some df' => analyze_from df' rest
    end
  end.

(** [for i in range(1, len(df))] *)
Definition analyze_routes (df : DataFrame) : option DataFrame :=
  analyze_from df (seq 1 (length df - 1)).

(** ** prepare_data *)

(** A raw cell of a column that [prepare_data] casts to Int64. *)
Inductive scalar :=
  | PyNone
  | PyInt (z : Z)
  | PyStr (s : string).

(** A row as fetched from [new_route_rf]. *)
Record RawRow := mkRawRow {
  raw_text_route_number : string;
  raw_type_of_transportation : option string;
  raw_route_min_date : string;
  raw_departure_station_code_of_rf : option string;
  raw_destination_station_code_of_rf : option string;
  raw_payer_of_the_railway_tariff_unified : option string;
  raw_shipper_okpo : option string;
  raw_consignee_okpo : option string;
  raw_departure_station_of_the_rf : option string;
  raw_rf_destination_station : option string;
  raw_shipper_by_puzt : option string;
  raw_consignee_by_puzt : option string;
  raw_text_route_number_count : scalar;
  raw_route_month : scalar;
  raw_route_year : scalar;
  raw_teu : scalar
}.

(** [Series.str.replace(pat, '', regex=True)] for a pattern without regex
    metacharacters: every non-overlapping occurrence of [pat], found left to
    right, is removed. [skip] counts the characters of an occurrence still to
    drop. *)
Fixpoint str_remove_aux (pat s : string) (skip : nat) : string :=
  match s with
  | EmptyString => EmptyString
  | String c rest =>
    match skip with
    | S k => str_remove_aux pat rest k
    | O =>
      if String.prefix pat s
      then str_remove_aux pat rest (String.length pat - 1)
      else String c (str_remove_aux pat rest 0)
    end
  end.

Definition str_remove (pat s : string) : string := str_remove_aux pat s 0.

(** The prefix removed from a route number: Cyrillic capital letter M
    followed by an underscore. *)
Definition ROUTE_PREFIX : string := "М_".

(** Sorting order of [sort_values] on the date column: ascending, nulls
    last ([na_position='last']). *)
Definition date_key_ltb (a b : option date) : bool :=
  match a, b with
  | Some x, Some y => date_ltb x y
  | Some _, None => true
  | None, _ => false
  end.

Definition date_key_eqb (a b : option date) : bool :=
  match a, b with
  | Some x, Some y => date_eqb x y
  | None, None => true
  | _, _ => false
  end.

(** The order of [by=['route_min_date', 'text_route_number_int']]. *)
Definition sort_key_leb (a b : Z * RouteData) : bool :=
  date_key_ltb (route_min_date (snd a)) (route_min_date (snd b))
  || (date_key_eqb (route_min_date (snd a)) (route_min_date (snd b))
      && (fst a <=? fst b)).

(** [sort_values] on several keys is a stable sort; a stable sort is
    determined by its order, here realised by insertion. *)
Fixpoint insert_by_key (x : Z * RouteData) (l : list (Z * RouteData))
  : list (Z * RouteData) :=
  match l with
  | [] => [x]
  | y :: l' => if sort_key_leb x y then x :: l else y :: insert_by_key x l'
  end.

Definition sort_values (l : list (Z * RouteData)) : list (Z * RouteData) :=
  fold_right insert_by_key [] l.

(** The default values of the four added columns. *)
Definition initial_lineage : Lineage :=
  {| category_route := NEW;
     old_text_route_number := None;
     changed_field := None;
     old_value_field := None |}.

(** [mapM] over [option]: the first failure aborts. *)
Fixpoint traverse {A B : Type} (f : A -> option B) (l : list A) : option (list B) :=
  match l with
  | [] => Some []
  | x :: l' =>
    match f x with
    | None => None
    | Some y =>
      match traverse f l' with
      | None => None
      | Some ys => Some (y :: ys)
      end
    end
  end.

Section Prepare.

(** The casts and the date parser belong to pandas and numpy; they are
    taken as parameters. [None] is a raised exception. *)
Variable astype_Int64 : scalar -> option (option Z).
Variable to_datetime_coerce : string -> option date.
Variable astype_uint32 : string -> option Z.

(** The Int64 casts and the date conversion of one row. *)
Definition cast_row (r : RawRow) : option RouteData :=
  match astype_Int64 (raw_text_route_number_count r),
        astype_Int64 (raw_route_month r),
        astype_Int64 (raw_route_year r),
        astype_Int64 (raw_teu r) with
  | Some cnt, Some m, Some y, Some t =>
    Some {| text_route_number := raw_text_route_number r;
            type_of_transportation := raw_type_of_transportation r;
            route_min_date := to_datetime_coerce (raw_route_min_date r);
            departure_station_code_of_rf := raw_departure_station_code_of_rf r;
            destination_station_code_of_rf := raw_destination_station_code_of_rf r;
            payer_of_the_railway_tariff_unified :=
              raw_payer_of_the_railway_tariff_unified r;
            shipper_okpo := raw_shipper_okpo r;
            consignee_okpo := raw_consignee_okpo r;
            departure_station_of_the_rf := raw_departure_station_of_the_rf r;
            rf_destination_station := raw_rf_destination_station r;
            shipper_by_puzt := raw_shipper_by_puzt r;
            consignee_by_puzt := raw_consignee_by_puzt r;
            text_route_number_count := cnt;
            route_month := m;
            route_year := y;
            teu := t |}
  | _, _, _, _ => None
  end.

(** [df.assign(text_route_number_int=...)] for one row. *)
Definition assign_route_number_int (r : RouteData) : option (Z * RouteData) :=
  match astype_uint32 (str_remove ROUTE_PREFIX (text_route_number r)) with
  | Some n => Some (n, r)
  | None => None
  end.

(** [None]: one of the casts raised, and with it [prepare_data]. *)
Definition prepare_data (df : list RawRow) : option DataFrame :=
  match traverse cast_row df with
  | None => None
  | Some rows =>
    match traverse assign_route_number_int rows with
    | None => None
    | Some keyed =>
      Some (map (fun kr => {| data := snd kr; lineage := initial_lineage |})
                (sort_values keyed))
    end
  end.

End Prepare.

(** ** The sink: save_to_file, insert_data, and run *)

Inductive log_level := INFO | WARNING | ERROR.

(** What the process does to the outside world, in the order it does it. *)
Inductive event :=
  | Log (level : log_level) (message : string)
  | Query (sql : string)
  | ToCsv (filename : string) (df : DataFrame)
  | InsertDf (table : string) (df : DataFrame).

(** How a call ends: it returns, raises an [Exception], or raises
    [SystemExit] (which [except Exception] does not catch). *)
Inductive outcome (A : Type) :=
  | Returned (a : A)
  | Raised (exc : string)
  | SysExit (code : Z).
Arguments Returned {A} a.
Arguments Raised {A} exc.
Arguments SysExit {A} code.

(** A computation extends the trace of events and ends in an outcome. *)
Definition IO (A : Type) : Type := list event -> list event * outcome A.

Definition ret {A} (a : A) : IO A := fun t => (t, Returned a).

Definition bind {A B} (c : IO A) (k : A -> IO B) : IO B :=
  fun t =>
    match c t with
    | (t', Returned a) => k a t'
    | (t', Raised e) => (t', Raised e)
    | (t', SysExit n) => (t', SysExit n)
    end.

Notation "x <- c1 ;; c2" := (bind c1 (fun x => c2))
  (at level 100, c1 at next level, right associativity).
Notation "c1 ;; c2" := (bind c1 (fun _ => c2))
  (at level 100, right associativity).

Definition emit (e : event) : IO unit := fun t => ((t ++ [e])%list, Returned tt).

Definition raise {A} (exc : string) : IO A := fun t => (t, Raised exc).

(** [sys.exit(code)] *)
Definition sys_exit {A} (code : Z) : IO A := fun t => (t, SysExit code).

(** [try: body  except Exception as e: handler(e)] *)
Definition try_except {A} (body : IO A) (handler : string -> IO A) : IO A :=
  fun t =>
    match body t with
    | (t', Raised e) => handler e t'
    | r => r
    end.

(** The behaviour of the collaborators during one run. *)
Record World := mkWorld {
  (** rows returned by the source query; [None] when the query raises *)
  query_rows : option (list RawRow);
  (** [DataFrame.replace] with the mapping of [insert_data] *)
  df_replace : DataFrame -> DataFrame;
  (** whether [DataFrame.to_csv] raises *)
  to_csv_raises : bool;
  (** whether [client.insert_df] raises *)
  insert_df_raises : bool
}.

Definition table : string := "new_route".

Section Run.

Variable astype_Int64 : scalar -> option (option Z).
Variable to_datetime_coerce : string -> option date.
Variable astype_uint32 : string -> option Z.
Variable w : World.

(** A log record; the text is kept without the values the source
    interpolates into it. *)
Definition logger (level : log_level) (message : string) : IO unit :=
  emit (Log level message).

(** [df.to_csv(filename, index=False)] *)
Definition to_csv (df : DataFrame) (filename : string) : IO unit :=
  emit (ToCsv filename df) ;;
  if to_csv_raises w then raise "to_csv" else ret tt.

(** [self.client.insert_df(table=..., df=df)] *)
Definition insert_df (tbl : string) (df : DataFrame) : IO unit :=
  emit (InsertDf tbl df) ;;
  if insert_df_raises w then raise "insert_df" else ret tt.

Definition save_to_file (df : DataFrame) (filename : string) : IO unit :=
  try_except
    (to_csv df filename ;;
     logger INFO "DataFrame saved to file")
    (fun e => logger ERROR "Error saving DataFrame to file").

Definition insert_data (df : DataFrame) : IO unit :=
  logger INFO "Inserting data into ClickHouse..." ;;
  let df := df_replace w df in
  save_to_file df "output.csv" ;;
  try_except
    (insert_df table df ;;
     logger INFO "Data successfully inserted")
    (fun ex_insert =>
       logger ERROR "Error inserting data" ;;
       sys_exit 1).

Definition fetch_data : IO (option (list RawRow)) :=
  try_except
    (logger INFO "Fetching data from ClickHouse..." ;;
     emit (Query "SELECT * FROM new_route_rf WHERE text_route_number_count == '1'") ;;
     match query_rows w with
     | None => raise "query"
     | Some [] =>
       logger WARNING "No data found in new_route_rf" ;;
       ret None
     | Some rows => ret (Some rows)
     end)
    (fun ex_connect =>
       logger ERROR "Error fetching data from ClickHouse" ;;
       sys_exit 1).

(** An exception of [prepare_data] or [analyze_routes] is not caught by
    [run]. *)
Definition lift {A} (exc : string) (o : option A) : IO A :=
  match o with
  | Some a => ret a
  | None => raise exc
  end.

Definition run : IO unit :=
  logger INFO "Starting route analysis process." ;;
  df <- fetch_data ;;
  match df with
  | Some df =>
    logger INFO "Fetched rows of data." ;;
    logger INFO "Preparing data for analysis..." ;;
    df <- lift "prepare_data"
            (prepare_data astype_Int64 to_datetime_coerce astype_uint32 df) ;;
    logger INFO "Prepared rows of data." ;;
    logger INFO "Analyzing routes for changes..." ;;
    df <- lift "analyze_routes" (analyze_routes df) ;;
    logger INFO "Route analysis completed." ;;
    insert_data df ;;
    logger INFO "Route analysis completed and data inserted."
  | None => ret tt
  end.

End Run.

(** ** Stand-ins for the library casts, used to run the program on examples *)

Definition digit_value (c : ascii) : option Z :=
  let n := Z.of_nat (nat_of_ascii c) in
  if (48 <=? n) && (n <=? 57) then Some (n - 48) else None.

Fixpoint decimal_aux (s : string) (acc : Z) : option Z :=
  match s with
  | EmptyString => Some acc
  | String c rest =>
    match digit_value c with
    | Some d => decimal_aux rest (10 * acc + d)
    | None => None
    end
  end.

(** A non-empty string of decimal digits. *)
Definition decimal (s : string) : option Z :=
  match s with
  | EmptyString => None
  | _ => decimal_aux s 0
  end.

(** The cast to uint32 of a string of decimal digits below 2^32; any other
    string raises. *)
Definition decimal_uint32 (s : string) : option Z :=
  match decimal s with
  | Some n => if n <? 2 ^ 32 then Some n else None
  | None => None
  end.

(** The cast to Int64 of a null, an integer or a string of digits. *)
Definition scalar_Int64 (v : scalar) : option (option Z) :=
  match v with
  | PyNone => Some None
  | PyInt z => if (- 2 ^ 63 <=? z) && (z <? 2 ^ 63) then Some (Some z) else None
  | PyStr s =>
    match decimal s with
    | Some n => if n <? 2 ^ 63 then Some (Some n) else None
    | None => None
    end
  end.

(** Dates written YYYY-MM-DD; any other text is coerced to [NaT]. *)
Definition iso_date (s : string) : option date :=
  if (String.length s =? 10)%nat
     && String.eqb (substring 4 1 s) "-" && String.eqb (substring 7 1 s) "-"
  then
    match decimal (substring 0 4 s), decimal (substring 5 2 s),
          decimal (substring 8 2 s) with
    | Some y, Some m, Some d =>
      if (1 <=? m) && (m <=? 12) && (1 <=? d) && (d <=? 31)
      then Some (mkDate y m d) else None
    | _, _, _ => None
    end
  else None.

Definition prepare := prepare_data scalar_Int64 iso_date decimal_uint32.

(** A raw row whose display columns repeat the codes, as in the fixture of
    tests/test_main.py. *)
Definition raw_row (number transport min_date departure destination
                    payer_name shipper_code consignee_code : string) : RawRow :=
  {| raw_text_route_number := number;
     raw_type_of_transportation := Some transport;
     raw_route_min_date := min_date;
     raw_departure_station_code_of_rf := Some departure;
     raw_destination_station_code_of_rf := Some destination;
     raw_payer_of_the_railway_tariff_unified := Some payer_name;
     raw_shipper_okpo := Some shipper_code;
     raw_consignee_okpo := Some consignee_code;
     raw_departure_station_of_the_rf := Some departure;
     raw_rf_destination_station := Some destination;
     raw_shipper_by_puzt := Some shipper_code;
     raw_consignee_by_puzt := Some consignee_code;
     raw_text_route_number_count := PyStr "1";
     raw_route_month := PyInt 1;
     raw_route_year := PyInt 2024;
     raw_teu := PyInt 10 |}.

(** The fixture [sample_data] of tests/test_main.py. *)
Definition sample_data : list RawRow :=
  [ raw_row "М_1001" "TYPE1" "2024-01-01" "001" "100" "PAYER1" "SHIP1" "CONS1";
    raw_row "М_1002" "TYPE2" "2024-02-01" "002" "200" "PAYER2" "SHIP2" "CONS2";
    raw_row "М_1003" "TYPE1" "2024-03-01" "001" "100" "PAYER3" "SHIP1" "CONS1";
    raw_row "М_1004" "TYPE1" "2024-03-02" "001" "100" "PAYER1" "SHIP1" "CONS4";
    raw_row "М_1005" "TYPE5" "2024-03-03" "005" "500" "PAYER5" "SHIP5" "CONS5" ].

(** Two routes that differ in the departure station only. *)
Definition corridor_change : list RawRow :=
  [ raw_row "М_1" "TYPE1" "2024-01-01" "001" "100" "PAYER1" "SHIP1" "CONS1";
    raw_row "М_2" "TYPE1" "2024-02-01" "002" "100" "PAYER1" "SHIP1" "CONS1" ].

(** The same two routes followed by a third one on the corridor of the
    first. *)
Definition corridor_detour : list RawRow :=
  corridor_change ++
  [ raw_row "М_3" "TYPE1" "2024-03-01" "001" "100" "PAYER1" "SHIP1" "CONS1" ].

(** Two routes equal in all five key columns. *)
Definition unchanged_route : list RawRow :=
  [ raw_row "М_1" "TYPE1" "2024-01-01" "001" "100" "PAYER1" "SHIP1" "CONS1";
    raw_row "М_2" "TYPE1" "2024-02-01" "001" "100" "PAYER1" "SHIP1" "CONS1" ].

(** Two routes whose date text cannot be parsed. *)
Definition undated_routes : list RawRow :=
  [ raw_row "М_1" "TYPE1" "unknown" "001" "100" "PAYER1" "SHIP1" "CONS1";
    raw_row "М_2" "TYPE1" "unknown" "001" "100" "PAYER1" "SHIP1" "CONS1" ].

(** A dated route and a route whose date text cannot be parsed. *)
Definition one_undated_route : list RawRow :=
  [ raw_row "М_1" "TYPE1" "not a date" "001" "100" "PAYER1" "SHIP1" "CONS1";
    raw_row "М_2" "TYPE1" "2024-02-01" "001" "100" "PAYER1" "SHIP1" "CONS1" ].

(** A well-formed route and a route number without a numeric suffix. *)
Definition malformed_route_number : list RawRow :=
  [ raw_row "М_1" "TYPE1" "2024-01-01" "001" "100" "PAYER1" "SHIP1" "CONS1";
    raw_row "М_" "TYPE1" "2024-02-01" "001" "100" "PAYER1" "SHIP1" "CONS1" ].

(** The pipeline of [run] after the fetch: normalise, then classify. *)
Definition classify (df : list RawRow) : option DataFrame :=
  match prepare df with
  | Some prepared => analyze_routes prepared
  | None => None
  end.

(** ** The match conditions, row by row *)

(** Condition 1: the dates differ ([==] on the two cells is false). *)
Definition different_date (c p : RouteData) : bool :=
  negb (py_date_eq (route_min_date c) (route_min_date p)).

(** Condition 2: the transport type is the same ([!=] is false). *)
Definition same_transport (c p : RouteData) : bool :=
  negb (py_ne (type_of_transportation c) (type_of_transportation p)).

(** The number of key columns on which two routes agree. *)
Definition match_count (c p : RouteData) : Z :=
  series_sum (matching_values c p).

(** Condition 3: at least [MIN_MATCHING_KEY_THRESHOLD] key columns agree. *)
Definition enough_matches (c p : RouteData) : bool :=
  MIN_MATCHING_KEY_THRESHOLD <=? match_count c p.

(** Condition 4: departure and destination codes agree. *)
Definition same_corridor (c p : RouteData) : bool :=
  (series_get (matching_values c p) departure_code =? 1)
  && (series_get (matching_values c p) destination_code =? 1).

(** Conditions 1 to 3: the candidate passes the three early returns. *)
Definition linkable (c p : RouteData) : bool :=
  different_date c p && same_transport c p && enough_matches c p.

(** All four conditions: [compare_and_update_routes] returns [True]. *)
Definition full_match (c p : RouteData) : bool :=
  linkable c p && same_corridor c p.

(** The key columns on which two routes disagree, in the order of
    [key_columns]. *)
Definition changed_fields (c p : RouteData) : list key_column :=
  zero_index (matching_values c p).

(** The lineage written for [c] when [p] is recorded as its predecessor. *)
Definition linked_to (p : RouteData) (c : Row) : Row :=
  set_lineage (record_predecessor p (changed_fields (data c) p) (lineage c)) c.

(** One call of [compare_and_update_routes], seen from the current row. *)
Definition compare_step (c : Row) (p : RouteData) : Row * bool :=
  if linkable (data c) p
  then (if pd_isna (old_text_route_number (lineage c)) then linked_to p c else c,
        same_corridor (data c) p)
  else (c, false).

(** The inner loop seen from the current row, over the candidates
    [n - 1, ..., 0] of [ds]. *)
Fixpoint scan_row (ds : list RouteData) (c : Row) (n : nat) : Row :=
  match n with
  | O => c
  | S j =>
    match ds !! j with
    | None => c
    | Some p =>
      let (c', hit) := compare_step c p in
      if hit then set_category CHANGED c' else scan_row ds c' j
    end
  end.

(** The nearest candidate below position [n] that satisfies [P], scanning
    downwards. *)
Fixpoint nearest (P : RouteData -> bool) (ds : list RouteData) (n : nat)
  : option nat :=
  match n with
  | O => None
  | S j =>
    match ds !! j with
    | Some p => if P p then Some j else nearest P ds j
    | None => nearest P ds j
    end
  end.

(** The final row at position [i], read off the positions found by
    [nearest]. *)
Definition classified (ds : list RouteData) (i : nat) (c : Row) : Row :=
  let c1 :=
    match nearest (linkable (data c)) ds i with
    | Some j =>
      match ds !! j with
      | Some p => if pd_isna (old_text_route_number (lineage c))
                  then linked_to p c else c
      | None => c
      end
    | None => c
    end in
  match nearest (full_match (data c)) ds i with
  | Some _ => set_category CHANGED c1
  | None => c1
  end.

(** [a] sorts no later than [b]. *)
Definition key_le (a b : Z * RouteData) : Prop := sort_key_leb a b = true.

(** The three provenance cells of a row. *)
Definition provenance (l : Lineage) : option string * option string * option string :=
  (old_text_route_number l, changed_field l, old_value_field l).

(** The frame a step returned, or the empty frame if it raised. *)
Definition frame_of (o : option DataFrame) : DataFrame := default [] o.

(** ** Start-up: get_my_env_var and connect_to_db *)

(** What [connect_to_db] meets: the process environment ([os.environ]),
    whether [get_client] raises, and which statements make [client.query]
    raise. *)
Record Connection := mkConnection {
  environ : gmap string string;
  get_client_raises : bool;
  client_query_raises : string -> bool
}.

Section Connect.

Variable conn : Connection.

(** [os.environ[var_name]], a missing name raising
    [MissingEnvironmentVariable], a subclass of [Exception]. *)
Definition get_my_env_var (var_name : string) : IO string :=
  match environ conn !! var_name with
  | Some value => ret value
  | None => raise "MissingEnvironmentVariable"
  end.

(** [get_client(host=..., database=..., username=..., password=...)] *)
Definition get_client (host database username password : string) : IO unit :=
  if get_client_raises conn then raise "get_client" else ret tt.

(** [client.query(sql)] *)
Definition client_query (sql : string) : IO unit :=
  emit (Query sql) ;;
  if client_query_raises conn sql then raise "query" else ret tt.

(** The keyword arguments of [get_client] are evaluated from left to
    right. *)
Definition connect_to_db : IO unit :=
  try_except
    (host <- get_my_env_var "HOST" ;;
     database <- get_my_env_var "DATABASE" ;;
     username <- get_my_env_var "USERNAME_DB" ;;
     password <- get_my_env_var "PASSWORD" ;;
     get_client host database username password ;;
     logger INFO "Success connected to clickhouse" ;;
     client_query "SET allow_experimental_lightweight_delete=1" ;;
     client_query "DELETE FROM new_route WHERE uuid is not NULL" ;;
     logger INFO "Success deleted data from new_route")
    (fun ex_connect =>
       logger ERROR "Error connection to db" ;;
       sys_exit 1).

End Connect.

(** The script: [analyzer = RouteAnalyzer()], whose constructor connects,
    then [analyzer.run()]. *)
Definition main (astype_Int64 : scalar -> option (option Z))
    (to_datetime_coerce : string -> option date)
    (astype_uint32 : string -> option Z)
    (conn : Connection) (w : World) : IO unit :=
  connect_to_db conn ;;
  run astype_Int64 to_datetime_coerce astype_uint32 w.

(** * Properties *)

(** ** Dates *)

Lemma date_eqb_eq a b : date_eqb a b = true <-> a = b.
Proof.
  destruct a as [y1 m1 d1], b as [y2 m2 d2]; unfold date_eqb; simpl.
  rewrite !andb_true_iff, !Z.eqb_eq. split.
  - intros [[-> ->] ->]. reflexivity.
  - intros [= -> -> ->]. auto.
Qed.

Lemma date_ltb_irrefl a : date_ltb a a = false.
Proof.
  unfold date_ltb. rewrite !Z.ltb_irrefl, !Z.eqb_refl. reflexivity.
Qed.

Lemma date_total a b : date_ltb a b = true \/ date_eqb a b = true \/ date_ltb b a = true.
Proof.
  unfold date_ltb, date_eqb.
  rewrite !orb_true_iff, !andb_true_iff, !orb_true_iff, !andb_true_iff,
    !Z.ltb_lt, !Z.eqb_eq.
  lia.
Qed.

(** ** The classifier, position by position *)

Lemma compare_step_data c p : data (fst (compare_step c p)) = data c.
Proof.
  unfold compare_step.
  destruct (linkable (data c) p); [|reflexivity].
  destruct (pd_isna _); reflexivity.
Qed.

(** A call on two positions of the frame rewrites the current row, and
    nothing else, as [compare_step] says. *)
Lemma compare_and_update_routes_step (df : DataFrame) i j c p :
  df !! i = Some c -> df !! j = Some p ->
  compare_and_update_routes df i j
  = Some (<[i := fst (compare_step c (data p))]> df,
          snd (compare_step c (data p))).
Proof.
  intros Hi Hj. unfold compare_and_update_routes, compare_step.
  rewrite Hi, Hj. cbv zeta.
  unfold linkable, different_date, same_transport, enough_matches, match_count.
  destruct (py_date_eq _ _); simpl.
  { by rewrite list_insert_id. }
  destruct (py_ne _ _); simpl.
  { by rewrite list_insert_id. }
  rewrite Z.ltb_antisym.
  destruct (MIN_MATCHING_KEY_THRESHOLD <=? _); simpl.
  - destruct (pd_isna _); simpl; [reflexivity|].
    by rewrite list_insert_id.
  - by rewrite list_insert_id.
Qed.

Lemma scan_row_data ds c n : data (scan_row ds c n) = data c.
Proof.
  revert c. induction n as [|j IH]; intros c; simpl; [reflexivity|].
  destruct (ds !! j) as [p|]; [|reflexivity].
  pose proof (compare_step_data c p) as Hd.
  destruct (compare_step c p) as [c' hit]. simpl in Hd.
  destruct hit; [exact Hd|]. by rewrite IH.
Qed.

Lemma fmap_data_insert (df : DataFrame) i c c' :
  df !! i = Some c -> data c' = data c ->
  data <$> <[i := c']> df = data <$> df.
Proof.
  intros Hi Hd. rewrite list_fmap_insert, Hd.
  apply list_insert_id. by rewrite list_lookup_fmap, Hi.
Qed.

(** The inner loop rewrites the current row, and nothing else, as
    [scan_row] says; it never fails inside the frame. *)
Lemma scan_previous_row (df : DataFrame) i n c :
  df !! i = Some c -> (n <= length df)%nat ->
  scan_previous df i n = Some (<[i := scan_row (data <$> df) c n]> df).
Proof.
  revert df c. induction n as [|j IH]; intros df c Hi Hn; simpl.
  { by rewrite list_insert_id. }
  destruct (lookup_lt_is_Some_2 df j) as [p Hj]; [lia|].
  rewrite (compare_and_update_routes_step df i j c p Hi Hj).
  rewrite list_lookup_fmap, Hj. simpl.
  pose proof (compare_step_data c (data p)) as Hd.
  destruct (compare_step c (data p)) as [c' hit]. simpl in *.
  assert (Hlen : (i < length df)%nat) by (apply lookup_lt_is_Some_1; eauto).
  destruct hit.
  - f_equal. apply list_eq. intros k.
    destruct (decide (i = k)) as [->|Hne].
    + rewrite list_lookup_alter_eq, !list_lookup_insert_eq by done. reflexivity.
    + by rewrite list_lookup_alter_ne, !list_lookup_insert_ne.
  - rewrite (IH (<[i := c']> df) c').
    + by rewrite list_insert_insert_eq, (fmap_data_insert df i c c').
    + by apply list_lookup_insert_eq.
    + rewrite length_insert. lia.
Qed.

(** The outer loop over the positions [a, ..., a + k - 1]. *)
Lemma analyze_from_rows k : forall a (df : DataFrame),
  (a + k <= length df)%nat ->
  analyze_from df (seq a k)
  = Some (imap (fun i c =>
                  if decide (a <= i < a + k)%nat
                  then scan_row (data <$> df) c i else c)
               df).
Proof.
  induction k as [|k IH]; intros a df Hk; simpl.
  - f_equal. apply list_eq. intros i. rewrite list_lookup_imap.
    destruct (df !! i) as [c|] eqn:Hi; simpl; [|reflexivity].
    case_decide; [lia|reflexivity].
  - destruct (lookup_lt_is_Some_2 df a) as [c Ha]; [lia|].
    rewrite (scan_previous_row df a a c Ha) by lia.
    rewrite IH by (rewrite length_insert; lia).
    rewrite (fmap_data_insert df a c) by (done || apply scan_row_data).
    f_equal. apply list_eq. intros i. rewrite !list_lookup_imap.
    destruct (decide (a = i)) as [->|Hne].
    + rewrite list_lookup_insert_eq by (apply lookup_lt_Some in Ha; done).
      rewrite Ha. simpl.
      repeat case_decide; try reflexivity; lia.
    + rewrite list_lookup_insert_ne by done.
      destruct (df !! i) as [ci|]; simpl; [|reflexivity].
      repeat case_decide; try reflexivity; lia.
Qed.

(** [analyze_routes] always returns, and the row at position [i] of its
    result is the scan of the row at position [i] of its argument. *)
Lemma analyze_routes_rows (df : DataFrame) :
  analyze_routes df = Some (imap (fun i c => scan_row (data <$> df) c i) df).
Proof.
  unfold analyze_routes.
  destruct (decide (df = [])) as [->|Hne]; [reflexivity|].
  assert (length df <> O) by (by destruct df).
  rewrite analyze_from_rows by lia.
  f_equal. apply list_eq. intros i. rewrite !list_lookup_imap.
  destruct (df !! i) as [c|] eqn:Hi; simpl; [|reflexivity].
  apply lookup_lt_Some in Hi.
  case_decide; [reflexivity|].
  replace i with O by lia. reflexivity.
Qed.

(** ** The nearest candidate *)

Lemma nearest_Some P ds n j :
  nearest P ds n = Some j ->
  (j < n)%nat
  /\ (exists p, ds !! j = Some p /\ P p = true)
  /\ (forall k p, (j < k < n)%nat -> ds !! k = Some p -> P p = false).
Proof.
  induction n as [|m IH]; simpl; [discriminate|].
  destruct (ds !! m) as [p|] eqn:Hm.
  - destruct (P p) eqn:HP.
    + intros [= <-]. split; [lia|]. split; [eauto|]. intros k q Hk. lia.
    + intros Hn. destruct (IH Hn) as (Hlt & Hex & Hrest).
      split; [lia|]. split; [exact Hex|].
      intros k q Hk Hq. destruct (decide (k = m)) as [->|Hne].
      * congruence.
      * apply (Hrest k q); [lia|exact Hq].
  - intros Hn. destruct (IH Hn) as (Hlt & Hex & Hrest).
    split; [lia|]. split; [exact Hex|].
    intros k q Hk Hq. destruct (decide (k = m)) as [->|Hne].
    + congruence.
    + apply (Hrest k q); [lia|exact Hq].
Qed.

Lemma nearest_None P ds n :
  nearest P ds n = None ->
  forall k p, (k < n)%nat -> ds !! k = Some p -> P p = false.
Proof.
  induction n as [|m IH]; simpl; intros Hn k p Hk Hp; [lia|].
  destruct (ds !! m) as [q|] eqn:Hm.
  - destruct (P q) eqn:HP; [discriminate|].
    destruct (decide (k = m)) as [->|Hne]; [congruence|].
    apply (IH Hn k p); [lia|exact Hp].
  - destruct (decide (k = m)) as [->|Hne]; [congruence|].
    apply (IH Hn k p); [lia|exact Hp].
Qed.

(** ** The scan of a row, in closed form *)

Lemma classified_data ds i c : data (classified ds i c) = data c.
Proof.
  unfold classified.
  assert (Hc1 : forall x : Row, data x = data c ->
            data (match nearest (full_match (data c)) ds i with
                  | Some _ => set_category CHANGED x
                  | None => x
                  end) = data c).
  { intros x Hx. destruct (nearest _ _ _); exact Hx. }
  apply Hc1.
  destruct (nearest (linkable _) _ _) as [j|]; [|reflexivity].
  destruct (ds !! j); [|reflexivity].
  destruct (pd_isna _); reflexivity.
Qed.

(** A row whose predecessor is already recorded keeps it: only its category
    can still change. *)
Lemma classified_recorded ds i c :
  pd_isna (old_text_route_number (lineage c)) = false ->
  classified ds i c
  = match nearest (full_match (data c)) ds i with
    | Some _ => set_category CHANGED c
    | None => c
    end.
Proof.
  intros Hna. unfold classified. rewrite Hna.
  destruct (nearest (linkable _) _ _) as [j|]; [|reflexivity].
  destruct (ds !! j); reflexivity.
Qed.

Lemma scan_row_classified ds n : forall c,
  (n <= length ds)%nat -> scan_row ds c n = classified ds n c.
Proof.
  induction n as [|j IH]; intros c Hn; [reflexivity|].
  destruct (lookup_lt_is_Some_2 ds j) as [p Hj]; [lia|].
  simpl scan_row. rewrite Hj.
  unfold classified. simpl nearest. rewrite Hj.
  unfold compare_step, full_match.
  destruct (linkable (data c) p) eqn:Hl; simpl.
  - rewrite Hj.
    destruct (same_corridor (data c) p) eqn:Hc; [reflexivity|].
    rewrite IH by lia.
    destruct (pd_isna (old_text_route_number (lineage c))) eqn:Hna.
    + rewrite classified_recorded by reflexivity. reflexivity.
    + rewrite classified_recorded by exact Hna. reflexivity.
  - rewrite IH by lia. reflexivity.
Qed.

(** The classifier in closed form: it always returns, keeps every input
    column, and leaves at each position the row [classified] describes. *)
Lemma analyze_routes_classified (df : DataFrame) :
  analyze_routes df = Some (imap (classified (data <$> df)) df).
Proof.
  rewrite analyze_routes_rows. f_equal. apply list_eq. intros i.
  rewrite !list_lookup_imap.
  destruct (df !! i) as [c|] eqn:Hi; simpl; [|reflexivity].
  rewrite scan_row_classified; [reflexivity|].
  rewrite length_fmap. apply lookup_lt_Some in Hi. lia.
Qed.

Lemma analyze_routes_lookup (df df' : DataFrame) i :
  analyze_routes df = Some df' ->
  df' !! i = classified (data <$> df) i <$> df !! i.
Proof.
  rewrite analyze_routes_classified. intros [= <-]. apply list_lookup_imap.
Qed.

Lemma analyze_routes_length (df df' : DataFrame) :
  analyze_routes df = Some df' -> length df' = length df.
Proof.
  rewrite analyze_routes_classified. intros [= <-]. apply length_imap.
Qed.

Lemma analyze_routes_data (df df' : DataFrame) :
  analyze_routes df = Some df' -> data <$> df' = data <$> df.
Proof.
  intros H. apply list_eq. intros i.
  rewrite !list_lookup_fmap, (analyze_routes_lookup df df' i H).
  destruct (df !! i); simpl; [|reflexivity].
  by rewrite classified_data.
Qed.

(** ** The order of sort_values *)

Ltac bool_to_Z :=
  repeat first
    [ rewrite orb_true_iff | rewrite andb_true_iff
    | rewrite orb_false_iff | rewrite andb_false_iff
    | rewrite Z.ltb_lt | rewrite Z.eqb_eq | rewrite Z.leb_le
    | rewrite Z.ltb_ge | rewrite Z.eqb_neq | rewrite Z.leb_gt ].

Ltac key_cases :=
  unfold key_le, sort_key_leb, date_key_ltb, date_key_eqb, date_ltb, date_eqb;
  simpl;
  repeat match goal with
  | |- context [route_min_date ?r] =>
    let d := fresh "d" in
    destruct (route_min_date r) as [d|]; [destruct d|]
  end;
  simpl; bool_to_Z; intuition (try congruence; try lia).

Lemma key_le_trans a b c : key_le a b -> key_le b c -> key_le a c.
Proof. destruct a as [ka ra], b as [kb rb], c as [kc rc]. key_cases. Qed.

Lemma key_le_total a b : sort_key_leb a b = false -> key_le b a.
Proof. destruct a as [ka ra], b as [kb rb]. key_cases. Qed.

(** Rows in sort order are in date order, nulls last. *)
Lemma key_le_date a b :
  key_le a b ->
  date_key_ltb (route_min_date (snd b)) (route_min_date (snd a)) = false.
Proof. destruct a as [ka ra], b as [kb rb]. key_cases. Qed.

Lemma insert_by_key_Forall (P : Z * RouteData -> Prop) x l :
  P x -> Forall P l -> Forall P (insert_by_key x l).
Proof.
  intros Hx Hl. induction Hl as [|y l Hy Hl IH]; simpl.
  - by constructor.
  - destruct (sort_key_leb x y); repeat constructor; assumption.
Qed.

Lemma insert_by_key_sorted x l :
  StronglySorted key_le l -> StronglySorted key_le (insert_by_key x l).
Proof.
  induction 1 as [|y l Hs IH Hy]; simpl.
  - repeat constructor.
  - destruct (sort_key_leb x y) eqn:Hxy.
    + constructor; [by constructor|].
      constructor; [exact Hxy|].
      eapply Forall_impl; [exact Hy|].
      intros z Hz. by apply (key_le_trans x y z).
    + constructor; [exact IH|].
      apply insert_by_key_Forall; [|exact Hy].
      by apply key_le_total.
Qed.

Lemma sort_values_sorted l : StronglySorted key_le (sort_values l).
Proof.
  induction l as [|x l IH]; simpl.
  - constructor.
  - by apply insert_by_key_sorted.
Qed.

Lemma insert_by_key_perm x l : Permutation (insert_by_key x l) (x :: l).
Proof.
  induction l as [|y l IH]; simpl; [reflexivity|].
  destruct (sort_key_leb x y); [reflexivity|].
  rewrite IH. apply perm_swap.
Qed.

Lemma sort_values_perm l : Permutation (sort_values l) l.
Proof.
  induction l as [|x l IH]; simpl; [reflexivity|].
  rewrite insert_by_key_perm. by constructor.
Qed.

Lemma StronglySorted_lookup_le {A} (R : A -> A -> Prop) (l : list A) j i x y :
  StronglySorted R l -> (j < i)%nat -> l !! j = Some x -> l !! i = Some y -> R x y.
Proof.
  intros Hs. revert j i. induction Hs as [|z l Hs IH Hz]; intros j i Hji Hj Hi.
  - discriminate.
  - destruct i as [|i]; [lia|]. simpl in Hi.
    destruct j as [|j]; simpl in Hj.
    + injection Hj as <-. rewrite Forall_forall in Hz. apply Hz.
      eapply list_elem_of_lookup_2. exact Hi.
    + apply (IH j i); [lia|done|done].
Qed.

(** ** prepare_data *)

Lemma traverse_Some {A B} (f : A -> option B) l l' :
  traverse f l = Some l' -> Forall2 (fun x y => f x = Some y) l l'.
Proof.
  revert l'. induction l as [|x l IH]; simpl; intros l'.
  - intros [= <-]. constructor.
  - destruct (f x) as [y|] eqn:Hx; [|discriminate].
    destruct (traverse f l) as [ys|]; [|discriminate].
    intros [= <-]. constructor; [exact Hx|]. by apply IH.
Qed.

Lemma traverse_None {A B} (f : A -> option B) l x :
  x ∈ l -> f x = None -> traverse f l = None.
Proof.
  intros Hin Hx. induction Hin as [x l|x y l Hin IH]; simpl.
  - by rewrite Hx.
  - destruct (f y); [|reflexivity]. by rewrite IH.
Qed.

Section PrepareFacts.

Variable astype_Int64 : scalar -> option (option Z).
Variable to_datetime_coerce : string -> option date.
Variable astype_uint32 : string -> option Z.

Local Abbreviation prepare_data' :=
  (prepare_data astype_Int64 to_datetime_coerce astype_uint32).
Local Abbreviation cast_row' := (cast_row astype_Int64 to_datetime_coerce).
Local Abbreviation with_key := (assign_route_number_int astype_uint32).

Lemma prepare_data_Some raw df :
  prepare_data' raw = Some df ->
  exists rows keyed,
    traverse cast_row' raw = Some rows
    /\ traverse with_key rows = Some keyed
    /\ df = map (fun kr => {| data := snd kr; lineage := initial_lineage |})
                (sort_values keyed).
Proof.
  unfold prepare_data.
  destruct (traverse (cast_row _ _) raw) as [rows|] eqn:Hrows; [|discriminate].
  destruct (traverse (assign_route_number_int _) rows) as [keyed|] eqn:Hkeyed;
    [|discriminate].
  intros [= <-]. eauto.
Qed.

Lemma with_key_snd rows keyed :
  traverse with_key rows = Some keyed -> map snd keyed = rows.
Proof.
  intros H. apply traverse_Some in H.
  induction H as [|r kr rows keyed Hr _ IH]; simpl; [reflexivity|].
  f_equal; [|exact IH].
  unfold assign_route_number_int in Hr.
  destruct (astype_uint32 _); [|discriminate]. by injection Hr as <-.
Qed.

(** Every prepared row carries the default lineage. *)
Lemma prepare_data_lineage raw df i c :
  prepare_data' raw = Some df -> df !! i = Some c ->
  lineage c = initial_lineage.
Proof.
  intros H Hi. destruct (prepare_data_Some raw df H) as (rows & keyed & _ & _ & ->).
  change (map ?f ?l) with (f <$> l) in Hi.
  rewrite list_lookup_fmap in Hi.
  destruct (sort_values keyed !! i); simpl in Hi; [|discriminate].
  by injection Hi as <-.
Qed.

(** The prepared frame is in date order, null dates last. *)
Lemma prepare_data_sorted raw df j i cj ci :
  prepare_data' raw = Some df ->
  (j < i)%nat -> df !! j = Some cj -> df !! i = Some ci ->
  date_key_ltb (route_min_date (data ci)) (route_min_date (data cj)) = false.
Proof.
  intros H Hji Hj Hi.
  destruct (prepare_data_Some raw df H) as (rows & keyed & _ & _ & ->).
  change (map ?f ?l) with (f <$> l) in Hi, Hj.
  rewrite list_lookup_fmap in Hi, Hj.
  destruct (sort_values keyed !! i) as [ki|] eqn:Hki; simpl in Hi; [|discriminate].
  destruct (sort_values keyed !! j) as [kj|] eqn:Hkj; simpl in Hj; [|discriminate].
  injection Hi as <-. injection Hj as <-. simpl.
  apply key_le_date.
  exact (StronglySorted_lookup_le key_le _ j i kj ki
           (sort_values_sorted keyed) Hji Hkj Hki).
Qed.

(** The prepared frame holds the cast rows of the input, each once. *)
Lemma prepare_data_perm raw df :
  prepare_data' raw = Some df ->
  exists rows,
    Forall2 (fun r d => cast_row' r = Some d) raw rows
    /\ Permutation (data <$> df) rows.
Proof.
  intros H. destruct (prepare_data_Some raw df H) as (rows & keyed & Hr & Hk & ->).
  exists rows. split; [by apply traverse_Some|].
  change (map ?f ?l) with (f <$> l).
  rewrite <- list_fmap_compose.
  rewrite <- (with_key_snd rows keyed Hk).
  change (map snd keyed) with (snd <$> keyed).
  apply fmap_Permutation, sort_values_perm.
Qed.

Lemma prepare_data_length raw df :
  prepare_data' raw = Some df -> length df = length raw.
Proof.
  intros H. destruct (prepare_data_perm raw df H) as (rows & Hf & Hp).
  apply Permutation_length in Hp. apply Forall2_length in Hf.
  rewrite length_fmap in Hp. lia.
Qed.

Lemma cast_row_date r d :
  cast_row' r = Some d ->
  route_min_date d = to_datetime_coerce (raw_route_min_date r)
  /\ text_route_number d = raw_text_route_number r.
Proof.
  unfold cast_row.
  repeat match goal with |- context [astype_Int64 ?x] => destruct (astype_Int64 x) end;
    try discriminate.
  by intros [= <-].
Qed.

(** A route number that does not cast makes [prepare_data] raise. *)
Lemma prepare_data_malformed raw r :
  r ∈ raw ->
  astype_uint32 (str_remove ROUTE_PREFIX (raw_text_route_number r)) = None ->
  prepare_data' raw = None.
Proof.
  intros Hin Hbad. unfold prepare_data.
  destruct (traverse (cast_row _ _) raw) as [rows|] eqn:Hrows; [|reflexivity].
  apply traverse_Some in Hrows.
  destruct (proj1 (list_elem_of_lookup raw r) Hin) as [i Hi].
  destruct (Forall2_lookup_l _ _ _ _ _ Hrows Hi) as (d & Hd & Hcast).
  rewrite (traverse_None _ rows d); [reflexivity| |].
  - eapply list_elem_of_lookup_2. exact Hd.
  - unfold assign_route_number_int.
    destruct (cast_row_date r d Hcast) as [_ ->]. by rewrite Hbad.
Qed.

End PrepareFacts.

(** ** The lineage of a classified row *)

Lemma classified_category ds i c :
  category_route (lineage (classified ds i c))
  = match nearest (full_match (data c)) ds i with
    | Some _ => CHANGED
    | None => category_route (lineage c)
    end.
Proof.
  unfold classified.
  destruct (nearest (full_match _) _ _); [reflexivity|].
  destruct (nearest (linkable _) _ _) as [j|]; [|reflexivity].
  destruct (ds !! j); [|reflexivity].
  destruct (pd_isna _); reflexivity.
Qed.

Lemma classified_provenance ds i c :
  provenance (lineage (classified ds i c))
  = if pd_isna (old_text_route_number (lineage c))
    then match nearest (linkable (data c)) ds i with
         | Some j =>
           match ds !! j with
           | Some p => provenance (lineage (linked_to p c))
           | None => provenance (lineage c)
           end
         | None => provenance (lineage c)
         end
    else provenance (lineage c).
Proof.
  unfold classified. cbv zeta.
  destruct (nearest (full_match _) _ _);
    destruct (pd_isna _);
    destruct (nearest (linkable _) _ _) as [j|]; try reflexivity;
    destruct (ds !! j); reflexivity.
Qed.

(** A full match is in particular linkable, so the nearest linkable
    candidate is never below the nearest full match. *)
Lemma nearest_full_match_linkable c ds i j :
  nearest (full_match c) ds i = Some j ->
  exists k, nearest (linkable c) ds i = Some k /\ (j <= k < i)%nat.
Proof.
  intros Hj. destruct (nearest_Some _ _ _ _ Hj) as (Hlt & (p & Hp & Hfull) & _).
  unfold full_match in Hfull. apply andb_true_iff in Hfull as [Hl _].
  destruct (nearest (linkable c) ds i) as [k|] eqn:Hk.
  - exists k. split; [reflexivity|].
    destruct (nearest_Some _ _ _ _ Hk) as (Hki & _ & Hrest).
    split; [|exact Hki].
    destruct (decide (j <= k)%nat) as [|Hn]; [done|].
    rewrite (Hrest j p) in Hl by (lia || done). discriminate.
  - rewrite (nearest_None _ _ _ Hk j p Hlt Hp) in Hl. discriminate.
Qed.

(** ** Running the classifier again *)

Lemma classified_idempotent ds i c :
  classified ds i (classified ds i c) = classified ds i c.
Proof.
  unfold classified. cbv zeta.
  destruct (nearest (full_match (data c)) ds i) eqn:Hf;
    destruct (pd_isna (old_text_route_number (lineage c))) eqn:Hna;
    destruct (nearest (linkable (data c)) ds i) as [j|] eqn:Hl;
    try destruct (ds !! j) eqn:Hj;
    simpl; rewrite ?Hf, ?Hl, ?Hj, ?Hna; simpl; rewrite ?Hna; reflexivity.
Qed.

(** A call on a row whose predecessor is recorded leaves the frame as it
    is. *)
Lemma compare_and_update_routes_recorded (df df1 : DataFrame) i j c b :
  df !! i = Some c ->
  pd_isna (old_text_route_number (lineage c)) = false ->
  compare_and_update_routes df i j = Some (df1, b) -> df1 = df.
Proof.
  intros Hi Hna. unfold compare_and_update_routes. rewrite Hi, Hna.
  destruct (df !! j); [|discriminate]. cbv zeta.
  repeat match goal with
         | |- context [if ?x then _ else _] => destruct x
         end; by intros [= <- _].
Qed.

Lemma analyze_routes_first (df df' : DataFrame) :
  analyze_routes df = Some df' -> df' !! O = df !! O.
Proof.
  intros H. rewrite (analyze_routes_lookup df df' O H).
  destruct (df !! O); reflexivity.
Qed.

(** C7. Running [analyze_routes] on its own result returns that result
    unchanged. A call of [compare_and_update_routes] on a row whose
    [old_text_route_number] is not null writes nothing, so the three
    provenance cells of such a row are the same after the run as before, and
    a row that has just been given a predecessor is such a row. *)
Theorem analyze_routes_idempotent (df : DataFrame) :
  exists df',
    analyze_routes df = Some df'
    /\ analyze_routes df' = Some df'
    /\ (forall i c,
          df !! i = Some c ->
          pd_isna (old_text_route_number (lineage c)) = false ->
          (forall j df1 b,
              compare_and_update_routes df i j = Some (df1, b) -> df1 = df)
          /\ exists c', df' !! i = Some c'
                        /\ provenance (lineage c') = provenance (lineage c))
    /\ (forall p c,
          pd_isna (old_text_route_number (lineage (linked_to p c))) = false).
Proof.
  exists (imap (classified (data <$> df)) df).
  pose proof (analyze_routes_classified df) as Hrun.
  split; [exact Hrun|]. split; [|split].
  - rewrite analyze_routes_classified.
    rewrite (analyze_routes_data _ _ Hrun).
    f_equal. apply list_eq. intros i. rewrite !list_lookup_imap.
    destruct (df !! i); simpl; [|reflexivity].
    by rewrite classified_idempotent.
  - intros i c Hi Hna. split.
    + intros j df1 b. by apply compare_and_update_routes_recorded with (c := c).
    + exists (classified (data <$> df) i c). split.
      * by rewrite list_lookup_imap, Hi.
      * by rewrite classified_provenance, Hna.
  - reflexivity.
Qed.

(** The classified frame of [corridor_change]: its second row names a
    predecessor, and a second run keeps it. *)
Lemma analyze_routes_idempotent_witness :
  exists df',
    analyze_routes (frame_of (classify corridor_change)) = Some df'
    /\ analyze_routes df' = Some df'
    /\ exists c', df' !! 1%nat = Some c'
                  /\ provenance (lineage c')
                     = (Some "М_1", Some "departure_station_code_of_rf", Some "001").
Proof.
  destruct (analyze_routes_idempotent (frame_of (classify corridor_change)))
    as (df' & Hrun & Hagain & Hkeep & _).
  exists df'. split; [exact Hrun|]. split; [exact Hagain|].
  destruct (Hkeep 1%nat _ eq_refl eq_refl) as [_ (c' & Hc' & Hp)].
  exists c'. split; [exact Hc'|]. rewrite Hp. reflexivity.
Defined.

(** ** The first record *)

Section FirstRecord.

Variable astype_Int64 : scalar -> option (option Z).
Variable to_datetime_coerce : string -> option date.
Variable astype_uint32 : string -> option Z.

(** C8. On a non-empty input that [prepare_data] accepts, the outer loop of
    [analyze_routes] runs over the positions 1, ..., len - 1, so position 0
    is never the current record: the row at position 0 after the run is the
    row [prepare_data] put there, with category NEW and the three provenance
    cells null, and its date is no later than any date in the frame. *)
Theorem first_record_stays_new (raw : list RawRow) (df : DataFrame) :
  prepare_data astype_Int64 to_datetime_coerce astype_uint32 raw = Some df ->
  raw <> [] ->
  exists df' c0,
    analyze_routes df = Some df'
    /\ analyze_routes df = analyze_from df (seq 1 (length df - 1))
    /\ (O ∉ seq 1 (length df - 1))
    /\ df !! O = Some c0
    /\ df' !! O = Some c0
    /\ category_route (lineage c0) = NEW
    /\ provenance (lineage c0) = (None, None, None)
    /\ forall k c d,
         df' !! k = Some c -> route_min_date (data c) = Some d ->
         exists d0, route_min_date (data c0) = Some d0 /\ date_leb d0 d = true.
Proof.
  intros Hprep Hraw.
  pose proof (prepare_data_length _ _ _ raw df Hprep) as Hlen.
  destruct (lookup_lt_is_Some_2 df O) as [c0 Hc0].
  { destruct raw; [done|]. simpl in Hlen. lia. }
  pose proof (analyze_routes_classified df) as Hrun.
  eexists _, c0. split; [exact Hrun|].
  split; [reflexivity|].
  split. { rewrite elem_of_seq. lia. }
  split; [exact Hc0|].
  split. { by rewrite list_lookup_imap, Hc0. }
  pose proof (prepare_data_lineage _ _ _ raw df O c0 Hprep Hc0) as Hl0.
  split; [by rewrite Hl0|]. split; [by rewrite Hl0|].
  intros k c d Hk Hd.
  rewrite list_lookup_imap in Hk.
  destruct (df !! k) as [ck|] eqn:Hck; [|discriminate].
  injection Hk as <-. rewrite classified_data in Hd.
  destruct k as [|k].
  - assert (ck = c0) as -> by congruence.
    exists d. split; [exact Hd|].
    unfold date_leb. rewrite (proj2 (date_eqb_eq d d) eq_refl). apply orb_true_r.
  - pose proof (prepare_data_sorted _ _ _ raw df O (S k) c0 ck Hprep
                  ltac:(lia) Hc0 Hck) as Hs.
    rewrite Hd in Hs.
    destruct (route_min_date (data c0)) as [d0|]; [|discriminate].
    exists d0. split; [reflexivity|].
    simpl in Hs. unfold date_leb.
    destruct (date_total d0 d) as [H|[H|H]]; rewrite ?H, ?orb_true_r; try done.
    congruence.
Qed.

End FirstRecord.

(** The fixture of the tests: its first record is М_1001, dated 2024-01-01. *)
Lemma first_record_stays_new_witness :
  exists df' c0,
    analyze_routes (frame_of (prepare sample_data)) = Some df'
    /\ df' !! O = Some c0
    /\ text_route_number (data c0) = "М_1001"
    /\ category_route (lineage c0) = NEW.
Proof.
  destruct (first_record_stays_new scalar_Int64 iso_date decimal_uint32
              sample_data (frame_of (prepare sample_data)))
    as (df' & c0 & Hrun & _ & _ & Hc0 & Hc0' & Hcat & _).
  - reflexivity.
  - discriminate.
  - exists df', c0. split; [exact Hrun|]. split; [exact Hc0'|].
    split; [|exact Hcat].
    vm_compute in Hc0. by injection Hc0 as <-.
Defined.

(** ** The sink *)

(** [save_to_file] always returns: an exception of [to_csv] is caught and
    logged. *)
Lemma save_to_file_returns w df filename t :
  save_to_file w df filename t
  = ((t ++ [ToCsv filename df;
            if to_csv_raises w
            then Log ERROR "Error saving DataFrame to file"
            else Log INFO "DataFrame saved to file"])%list,
     Returned tt).
Proof.
  cbv [save_to_file try_except to_csv bind emit logger raise ret].
  destruct (to_csv_raises w); cbv beta iota; by rewrite <- List.app_assoc.
Qed.

(** C9. Whatever the outcome of the two writes, [insert_data] first calls
    [to_csv] on the audit file and then [insert_df] on the table, with the
    same frame. A failure of [to_csv] is logged as an error and the call of
    [insert_df] follows all the same; the outcome of [insert_data] is decided
    by [insert_df] alone: it returns if the insert returned and exits with
    status 1 if the insert raised. *)
Theorem insert_data_audit_then_insert (w : World) (df : DataFrame) (t : list event) :
  insert_data w df t
  = ((t ++ [Log INFO "Inserting data into ClickHouse...";
            ToCsv "output.csv" (df_replace w df);
            (if to_csv_raises w
             then Log ERROR "Error saving DataFrame to file"
             else Log INFO "DataFrame saved to file");
            InsertDf table (df_replace w df);
            (if insert_df_raises w
             then Log ERROR "Error inserting data"
             else Log INFO "Data successfully inserted")])%list,
     if insert_df_raises w then SysExit 1 else Returned tt).
Proof.
  unfold insert_data, bind at 1 2.
  unfold logger at 1, emit at 1.
  rewrite save_to_file_returns.
  cbv [try_except insert_df bind emit logger raise ret sys_exit].
  destruct (insert_df_raises w); cbv beta iota; by rewrite <- !List.app_assoc.
Qed.

(** ** Rows of a prepared and classified frame *)

Lemma lookup_data (df : DataFrame) j p :
  (data <$> df) !! j = Some p <-> exists r, df !! j = Some r /\ data r = p.
Proof.
  rewrite list_lookup_fmap. destruct (df !! j) as [r|]; simpl; split.
  - intros [= <-]. eauto.
  - intros (r' & [= <-] & <-). reflexivity.
  - discriminate.
  - intros (r' & Hr & _). discriminate.
Qed.

(** After the run the row at position [i] is the classification of the row
    that was there before, against the rows of the result. *)
Lemma analyze_routes_row (df df' : DataFrame) i c' :
  analyze_routes df = Some df' -> df' !! i = Some c' ->
  exists c, df !! i = Some c /\ data c' = data c
            /\ c' = classified (data <$> df') i c.
Proof.
  intros Hrun Hi.
  rewrite (analyze_routes_lookup df df' i Hrun) in Hi.
  destruct (df !! i) as [c|]; [|discriminate]. injection Hi as <-.
  exists c. rewrite (analyze_routes_data df df' Hrun), classified_data. done.
Qed.

(** The category after the run. *)
Lemma analyze_routes_category (df df' : DataFrame) i c c' :
  analyze_routes df = Some df' -> df !! i = Some c -> df' !! i = Some c' ->
  category_route (lineage c') = CHANGED
  <-> category_route (lineage c) = CHANGED
      \/ exists j p, (j < i)%nat /\ df' !! j = Some p
                     /\ full_match (data c') (data p) = true.
Proof.
  intros Hrun Hc Hc'.
  destruct (analyze_routes_row df df' i c' Hrun Hc') as (c0 & Hc0 & Hd & ->).
  assert (c0 = c) as -> by congruence.
  rewrite classified_category, classified_data.
  destruct (nearest (full_match (data c)) (data <$> df') i) as [j|] eqn:Hn.
  - split; [|reflexivity]. intros _. right.
    destruct (nearest_Some _ _ _ _ Hn) as (Hlt & (p & Hp & Hfull) & _).
    apply lookup_data in Hp as (r & Hr & <-). eauto 6.
  - split; [by left|]. intros [H|(j & p & Hlt & Hp & Hfull)]; [exact H|].
    rewrite (nearest_None _ _ _ Hn j (data p) Hlt) in Hfull; [discriminate|].
    apply lookup_data. eauto.
Qed.

(** The provenance after the run of a row that had none before: either
    still none, no earlier row being linkable, or the one written for the
    nearest linkable earlier row. *)
Lemma analyze_routes_provenance (df df' : DataFrame) i c c' :
  analyze_routes df = Some df' -> df !! i = Some c -> df' !! i = Some c' ->
  provenance (lineage c) = (None, None, None) ->
  (provenance (lineage c') = (None, None, None)
   /\ forall j p, (j < i)%nat -> df' !! j = Some p ->
                  linkable (data c') (data p) = false)
  \/ exists j p,
       (j < i)%nat /\ df' !! j = Some p
       /\ linkable (data c') (data p) = true
       /\ (forall k q, (j < k < i)%nat -> df' !! k = Some q ->
                       linkable (data c') (data q) = false)
       /\ provenance (lineage c')
          = (Some (text_route_number (data p)),
             Some (join ", " (map column_name (changed_fields (data c') (data p)))),
             Some (join ", "
                     (map (fun field => py_format (old_value_mapping field (data p)))
                          (changed_fields (data c') (data p))))).
Proof.
  intros Hrun Hc Hc' Hnone.
  destruct (analyze_routes_row df df' i c' Hrun Hc') as (c0 & Hc0 & Hd & ->).
  assert (c0 = c) as -> by congruence.
  rewrite classified_provenance, classified_data.
  assert (Hna : pd_isna (old_text_route_number (lineage c)) = true).
  { unfold provenance in Hnone. injection Hnone as -> _ _. reflexivity. }
  rewrite Hna.
  destruct (nearest (linkable (data c)) (data <$> df') i) as [j|] eqn:Hn.
  - right.
    destruct (nearest_Some _ _ _ _ Hn) as (Hlt & (p & Hp & Hlink) & Hrest).
    rewrite Hp. apply lookup_data in Hp as (r & Hr & <-).
    exists j, r. split; [exact Hlt|]. split; [exact Hr|]. split; [exact Hlink|].
    split; [|reflexivity].
    intros k q Hk Hq. apply (Hrest k (data q) Hk). apply lookup_data. eauto.
  - left. split; [exact Hnone|].
    intros j p Hlt Hp. apply (nearest_None _ _ _ Hn j (data p) Hlt).
    apply lookup_data. eauto.
Qed.

(** ** The match conditions *)

Lemma series_eq_true a b :
  series_eq a b = true <-> exists s, a = Some s /\ b = Some s.
Proof.
  destruct a as [x|], b as [y|]; simpl; split;
    try discriminate; try (intros (s & ? & ?); discriminate).
  - intros ->%String.eqb_eq. eauto.
  - intros (s & [= ->] & [= ->]). apply String.eqb_refl.
Qed.

Ltac five_columns c p :=
  unfold changed_fields, match_count, same_corridor, matching_values,
    zero_index, series_sum, key_columns;
  simpl;
  destruct (series_eq (departure_station_code_of_rf c)
                      (departure_station_code_of_rf p)),
           (series_eq (destination_station_code_of_rf c)
                      (destination_station_code_of_rf p)),
           (series_eq (payer_of_the_railway_tariff_unified c)
                      (payer_of_the_railway_tariff_unified p)),
           (series_eq (shipper_okpo c) (shipper_okpo p)),
           (series_eq (consignee_okpo c) (consignee_okpo p)).

(** The changed fields are the key columns on which [series_eq] fails, in
    the order of [key_columns]. *)
Lemma changed_fields_filter c p :
  changed_fields c p
  = List.filter (fun k => negb (series_eq (key_value k c) (key_value k p)))
                key_columns.
Proof. five_columns c p; reflexivity. Qed.

(** The sum of [matching_values] counts the key columns that agree. *)
Lemma match_count_filter c p :
  match_count c p
  = Z.of_nat (length (List.filter
                        (fun k => series_eq (key_value k c) (key_value k p))
                        key_columns)).
Proof. five_columns c p; reflexivity. Qed.

Lemma match_count_changed_fields c p :
  match_count c p + Z.of_nat (length (changed_fields c p)) = 5.
Proof. five_columns c p; reflexivity. Qed.

Lemma same_corridor_true c p :
  same_corridor c p = true
  <-> series_eq (departure_station_code_of_rf c)
                (departure_station_code_of_rf p) = true
      /\ series_eq (destination_station_code_of_rf c)
                   (destination_station_code_of_rf p) = true.
Proof. five_columns c p; simpl; intuition congruence. Qed.

Lemma filter_sublist {A} (f : A -> bool) (l : list A) :
  sublist (List.filter f l) l.
Proof.
  induction l as [|x l IH]; simpl; [constructor|].
  destruct (f x); by constructor.
Qed.

Lemma linkable_enough c p :
  linkable c p = true -> (length (changed_fields c p) <= 2)%nat.
Proof.
  unfold linkable, enough_matches, MIN_MATCHING_KEY_THRESHOLD.
  rewrite !andb_true_iff, Z.leb_le. intros [_ H].
  pose proof (match_count_changed_fields c p). lia.
Qed.

(** ** Provenance *)

Section Provenance.

Variable astype_Int64 : scalar -> option (option Z).
Variable to_datetime_coerce : string -> option date.
Variable astype_uint32 : string -> option Z.

Local Abbreviation prepare_data' :=
  (prepare_data astype_Int64 to_datetime_coerce astype_uint32).

Lemma prepared_provenance raw (df : DataFrame) i c :
  prepare_data' raw = Some df -> df !! i = Some c ->
  category_route (lineage c) = NEW /\ provenance (lineage c) = (None, None, None).
Proof.
  intros Hprep Hc.
  by rewrite (prepare_data_lineage _ _ _ raw df i c Hprep Hc).
Qed.


(** C3, as the code has it. After [prepare_data] and [analyze_routes], a
    row of category CHANGED has a [changed_field] that is not null, and a
    [changed_field] that is not null joins with ", " the names of exactly the
    key columns on which the row and the earlier row named by its
    [old_text_route_number] disagree, in the order of [key_columns]: no more
    than two names, and none at all (the empty string) when the two rows
    agree on all five. *)
Theorem changed_field_lists_differences raw (df : DataFrame) :
  prepare_data' raw = Some df ->
  exists df',
    analyze_routes df = Some df'
    /\ forall i c,
         df' !! i = Some c ->
         (category_route (lineage c) = CHANGED ->
          is_Some (changed_field (lineage c)))
         /\ forall s,
              changed_field (lineage c) = Some s ->
              exists j p,
                (j < i)%nat /\ df' !! j = Some p
                /\ old_text_route_number (lineage c)
                   = Some (text_route_number (data p))
                /\ s = join ", " (map column_name (changed_fields (data c) (data p)))
                /\ changed_fields (data c) (data p)
                   = List.filter
                       (fun k => negb (series_eq (key_value k (data c))
                                                 (key_value k (data p))))
                       key_columns
                /\ sublist (changed_fields (data c) (data p)) key_columns
                /\ (length (changed_fields (data c) (data p)) <= 2)%nat
                /\ (s = "" <-> match_count (data c) (data p) = 5).
Proof.
  intros Hprep.
  pose proof (analyze_routes_classified df) as Hrun.
  eexists. split; [exact Hrun|].
  intros i c' Hc'.
  destruct (analyze_routes_row _ _ i c' Hrun Hc') as (c & Hc & _ & _).
  destruct (prepared_provenance raw df i c Hprep Hc) as [Hnew Hnone].
  destruct (analyze_routes_provenance _ _ i c c' Hrun Hc Hc' Hnone)
    as [[Hp Hno]|(j & p & Hlt & Hp & Hlink & _ & Hprov)].
  - injection Hp as Hold Hchanged Hvalue. split.
    + intros Hcat.
      apply (analyze_routes_category _ _ i c c' Hrun Hc Hc') in Hcat
        as [Hcat|(j & p & Hlt & Hp & Hfull)]; [congruence|].
      unfold full_match in Hfull. rewrite (Hno j p Hlt Hp) in Hfull. discriminate.
    + intros s Hs. congruence.
  - injection Hprov as Hold Hchanged Hvalue. split.
    + intros _. rewrite Hchanged. eauto.
    + intros s Hs. rewrite Hchanged in Hs. injection Hs as <-.
      exists j, p. split; [exact Hlt|]. split; [exact Hp|]. split; [exact Hold|].
      split; [reflexivity|]. split; [apply changed_fields_filter|].
      split. { rewrite changed_fields_filter. apply filter_sublist. }
      split. { by apply linkable_enough. }
      pose proof (match_count_changed_fields (data c') (data p)) as Hsum.
      destruct (changed_fields (data c') (data p)) as [|k1 [|k2 ks]] eqn:Hfields.
      * simpl in *. split; [lia|reflexivity].
      * split; [destruct k1; discriminate|]. simpl in Hsum. lia.
      * split; [destruct k1; discriminate|]. simpl in Hsum. lia.
Qed.

End Provenance.


(** C3 as stated fails: the second of two routes that agree on all five key
    columns is CHANGED, and its [changed_field] is the empty string, the join
    of no names. *)
Lemma changed_field_empty_counterexample :
  exists df' c p,
    classify unchanged_route = Some df'
    /\ df' !! 1%nat = Some c /\ df' !! 0%nat = Some p
    /\ category_route (lineage c) = CHANGED
    /\ old_text_route_number (lineage c) = Some (text_route_number (data p))
    /\ changed_fields (data c) (data p) = []
    /\ changed_field (lineage c) = Some "".
Proof.
  eexists _, _, _. split; [vm_compute; reflexivity|].
  repeat split; reflexivity.
Qed.

(** The fixture of the tests: the third record differs from the first, its
    predecessor, in the payer only. *)
Lemma changed_field_lists_differences_witness :
  prepare sample_data = Some (frame_of (prepare sample_data))
  /\ exists df' c p,
       analyze_routes (frame_of (prepare sample_data)) = Some df'
       /\ df' !! 2%nat = Some c
       /\ changed_field (lineage c) = Some "payer_of_the_railway_tariff_unified"
       /\ old_text_route_number (lineage c) = Some (text_route_number (data p))
       /\ sublist (changed_fields (data c) (data p)) key_columns.
Proof.
  split; [reflexivity|].
  destruct (changed_field_lists_differences scalar_Int64 iso_date decimal_uint32
              sample_data (frame_of (prepare sample_data)) eq_refl)
    as (df' & Hrun & Hrows).
  pose proof Hrun as Hval. vm_compute in Hval. injection Hval as Hval.
  destruct (lookup_lt_is_Some_2 df' 2%nat) as [c Hc].
  { rewrite (analyze_routes_length _ _ Hrun). vm_compute. lia. }
  assert (Hs : changed_field (lineage c)
               = Some "payer_of_the_railway_tariff_unified").
  { rewrite <- Hval in Hc. vm_compute in Hc. by injection Hc as <-. }
  destruct (Hrows 2%nat c Hc) as [_ Hfields].
  destruct (Hfields _ Hs) as (j & p & _ & _ & Hold & _ & _ & Hsub & _).
  exists df', c, p. split; [exact Hrun|]. split; [exact Hc|]. split; [exact Hs|].
  split; [exact Hold|exact Hsub].
Defined.

(** ** Corridors and the nearest predecessor *)

Lemma nearest_intro P ds n j p :
  (j < n)%nat -> ds !! j = Some p -> P p = true ->
  (forall k q, (j < k < n)%nat -> ds !! k = Some q -> P q = false) ->
  nearest P ds n = Some j.
Proof.
  intros Hlt Hp HP Hrest.
  destruct (nearest P ds n) as [k|] eqn:Hn.
  - destruct (nearest_Some _ _ _ _ Hn) as (Hk & (q & Hq & HQ) & Hrest').
    f_equal. destruct (lt_eq_lt_dec j k) as [[Hjk|Heq]|Hkj]; [|done|].
    + rewrite (Hrest k q) in HQ by (lia || done). discriminate.
    + rewrite (Hrest' j p) in HP by (lia || done). discriminate.
  - rewrite (nearest_None _ _ _ Hn j p Hlt Hp) in HP. discriminate.
Qed.

(** The nearest candidate does not depend on the candidates below it. *)
Lemma nearest_above P (ds ds2 : list RouteData) n j k :
  (forall m, (j <= m < n)%nat -> ds2 !! m = ds !! m) ->
  nearest P ds n = Some k -> (j <= k)%nat -> nearest P ds2 n = Some k.
Proof.
  intros Hsame Hn Hjk.
  destruct (nearest_Some _ _ _ _ Hn) as (Hk & (p & Hp & HP) & Hrest).
  apply (nearest_intro P ds2 n k p Hk); [|exact HP|].
  - rewrite Hsame by lia. exact Hp.
  - intros m q Hm Hq. apply (Hrest m q Hm). rewrite <- Hsame by lia. exact Hq.
Qed.

Lemma corridor_differs c p :
  departure_station_code_of_rf c <> departure_station_code_of_rf p
  \/ destination_station_code_of_rf c <> destination_station_code_of_rf p ->
  same_corridor c p = false.
Proof.
  intros Hdiff. destruct (same_corridor c p) eqn:Hs; [|reflexivity].
  apply same_corridor_true in Hs as [H1 H2].
  apply series_eq_true in H1 as (a & Ha1 & Ha2).
  apply series_eq_true in H2 as (b & Hb1 & Hb2).
  destruct Hdiff; congruence.
Qed.

Section Corridor.

Variable astype_Int64 : scalar -> option (option Z).
Variable to_datetime_coerce : string -> option date.
Variable astype_uint32 : string -> option Z.

Local Abbreviation prepare_data' :=
  (prepare_data astype_Int64 to_datetime_coerce astype_uint32).

(** C1, as the code has it. After [prepare_data] and [analyze_routes]: two
    records that differ in departure or destination code never pass the
    fourth condition, and a record is CHANGED exactly when an earlier record
    passes all four with it, so that a record is never CHANGED on account of
    a record of another corridor. [old_text_route_number] is written before
    the fourth condition is looked at: when set, it names the nearest earlier
    record that passes conditions 1 to 3, on whatever corridor. *)
Theorem changed_only_within_corridor raw (df : DataFrame) :
  prepare_data' raw = Some df ->
  exists df',
    analyze_routes df = Some df'
    /\ forall i c,
         df' !! i = Some c ->
         (forall p,
             departure_station_code_of_rf (data c)
               <> departure_station_code_of_rf p
             \/ destination_station_code_of_rf (data c)
                  <> destination_station_code_of_rf p ->
             same_corridor (data c) p = false /\ full_match (data c) p = false)
         /\ (category_route (lineage c) = CHANGED
             <-> exists j p, (j < i)%nat /\ df' !! j = Some p
                             /\ linkable (data c) (data p) = true
                             /\ same_corridor (data c) (data p) = true)
         /\ (forall s,
                old_text_route_number (lineage c) = Some s ->
                exists j p, (j < i)%nat /\ df' !! j = Some p
                            /\ s = text_route_number (data p)
                            /\ linkable (data c) (data p) = true
                            /\ forall k q, (j < k < i)%nat -> df' !! k = Some q ->
                                           linkable (data c) (data q) = false).
Proof.
  intros Hprep.
  pose proof (analyze_routes_classified df) as Hrun.
  eexists. split; [exact Hrun|].
  intros i c' Hc'.
  destruct (analyze_routes_row _ _ i c' Hrun Hc') as (c & Hc & _ & _).
  destruct (prepared_provenance _ _ _ raw df i c Hprep Hc) as [Hnew Hnone].
  split; [|split].
  - intros p Hdiff. pose proof (corridor_differs _ _ Hdiff) as Hs.
    split; [exact Hs|]. unfold full_match. rewrite Hs. apply andb_false_r.
  - rewrite (analyze_routes_category _ _ i c c' Hrun Hc Hc').
    unfold full_match. split.
    + intros [H|(j & p & Hlt & Hp & [Hl Hs]%andb_true_iff)]; [congruence|].
      eauto 6.
    + intros (j & p & Hlt & Hp & Hl & Hs). right. exists j, p.
      by rewrite Hl, Hs.
  - intros s Hs.
    destruct (analyze_routes_provenance _ _ i c c' Hrun Hc Hc' Hnone)
      as [[Hp _]|(j & p & Hlt & Hp & Hlink & Hrest & Hprov)].
    + injection Hp as Hold _ _. congruence.
    + injection Hprov as Hold _ _. exists j, p.
      split; [exact Hlt|]. split; [exact Hp|]. split; [congruence|].
      split; [exact Hlink|exact Hrest].
Qed.

(** C2, as the code has it. In a prepared and classified frame let [j] be
    the first position, scanning from [i - 1] down, whose record passes all
    four conditions with the record at [i]. Then the record at [i] is
    CHANGED. Its [old_text_route_number] is the route number of the first
    position in that scan, at [j] or nearer, whose record passes conditions 1
    to 3; it is that of [j] when no nearer record passes them. The scan stops
    at [j]: the row at [i] is the same on every frame that has the same rows
    from position [j] on. *)
Theorem first_full_match_wins raw (df df' : DataFrame) i j c p :
  prepare_data' raw = Some df ->
  analyze_routes df = Some df' ->
  (j < i)%nat -> df' !! i = Some c -> df' !! j = Some p ->
  full_match (data c) (data p) = true ->
  (forall k q, (j < k < i)%nat -> df' !! k = Some q ->
               full_match (data c) (data q) = false) ->
  category_route (lineage c) = CHANGED
  /\ (exists k q,
         (j <= k < i)%nat /\ df' !! k = Some q
         /\ linkable (data c) (data q) = true
         /\ (forall m r, (k < m < i)%nat -> df' !! m = Some r ->
                         linkable (data c) (data r) = false)
         /\ old_text_route_number (lineage c) = Some (text_route_number (data q)))
  /\ ((forall k q, (j < k < i)%nat -> df' !! k = Some q ->
                   linkable (data c) (data q) = false) ->
      old_text_route_number (lineage c) = Some (text_route_number (data p)))
  /\ (forall df2 : DataFrame,
         (forall k, (j <= k)%nat -> df2 !! k = df !! k) ->
         exists df2', analyze_routes df2 = Some df2' /\ df2' !! i = Some c).
Proof.
  intros Hprep Hrun Hji Hc' Hp Hfull Hfirst.
  destruct (analyze_routes_row _ _ i c Hrun Hc') as (c0 & Hc0 & Hd & Hcls).
  destruct (prepared_provenance _ _ _ raw df i c0 Hprep Hc0) as [Hnew Hnone].
  assert (Hlinkp : linkable (data c) (data p) = true).
  { unfold full_match in Hfull. by apply andb_true_iff in Hfull as [? _]. }
  assert (Hcat : category_route (lineage c) = CHANGED).
  { apply (analyze_routes_category _ _ i c0 c Hrun Hc0 Hc'). right. eauto. }
  assert (Hnear : exists k q,
             (j <= k < i)%nat /\ df' !! k = Some q
             /\ linkable (data c) (data q) = true
             /\ (forall m r, (k < m < i)%nat -> df' !! m = Some r ->
                             linkable (data c) (data r) = false)
             /\ old_text_route_number (lineage c)
                = Some (text_route_number (data q))).
  { destruct (analyze_routes_provenance _ _ i c0 c Hrun Hc0 Hc' Hnone)
      as [[_ Hno]|(k & q & Hlt & Hq & Hlink & Hrest & Hprov)].
    - rewrite (Hno j p Hji Hp) in Hlinkp. discriminate.
    - injection Hprov as Hold _ _. exists k, q.
      split; [|by eauto].
      split; [|exact Hlt].
      destruct (decide (j <= k)%nat) as [|Hn]; [done|].
      rewrite (Hrest j p) in Hlinkp by (lia || done). discriminate. }
  split; [exact Hcat|]. split; [exact Hnear|]. split.
  - intros Hnone'. destruct Hnear as (k & q & Hk & Hq & Hlink & _ & Hold).
    destruct (decide (k = j)) as [->|Hne]; [congruence|].
    rewrite (Hnone' k q) in Hlink by (lia || done). discriminate.
  - intros df2 Hsame.
    pose proof (analyze_routes_classified df2) as Hrun2.
    eexists. split; [exact Hrun2|].
    rewrite list_lookup_imap, (Hsame i) by lia. rewrite Hc0. simpl. f_equal.
    rewrite Hcls, (analyze_routes_data _ _ Hrun).
    assert (Hds : forall m, (j <= m < i)%nat ->
                            (data <$> df2) !! m = (data <$> df) !! m).
    { intros m Hm. rewrite !list_lookup_fmap, Hsame by lia. reflexivity. }
    assert (Hpd : (data <$> df) !! j = Some (data p)).
    { rewrite <- (analyze_routes_data _ _ Hrun). apply lookup_data. eauto. }
    assert (Hnf : nearest (full_match (data c0)) (data <$> df) i = Some j).
    { rewrite <- Hd. apply (nearest_intro _ _ _ _ (data p)); try done.
      intros k q Hk Hq. rewrite <- (analyze_routes_data _ _ Hrun) in Hq.
      apply lookup_data in Hq as (r & Hr & <-). by apply (Hfirst k r). }
    destruct (nearest_full_match_linkable _ _ _ _ Hnf) as (k & Hnl & Hk).
    unfold classified.
    rewrite Hnf, Hnl.
    rewrite (nearest_above _ _ _ _ j j Hds Hnf) by lia.
    rewrite (nearest_above _ _ _ _ j k Hds Hnl) by lia.
    rewrite Hds by lia. reflexivity.
Qed.

End Corridor.

(** C1 as stated fails: the second route of [corridor_change] departs from
    another station than the first, and its [old_text_route_number] names
    the first. *)
Lemma corridor_link_counterexample :
  exists df' c p,
    classify corridor_change = Some df'
    /\ df' !! 1%nat = Some c /\ df' !! 0%nat = Some p
    /\ departure_station_code_of_rf (data c)
       <> departure_station_code_of_rf (data p)
    /\ old_text_route_number (lineage c) = Some (text_route_number (data p)).
Proof.
  eexists _, _, _. split; [vm_compute; reflexivity|].
  repeat split; try reflexivity. discriminate.
Qed.

(** On [corridor_change] the second route is linked to the first and is not
    CHANGED. *)
Lemma changed_only_within_corridor_witness :
  prepare corridor_change = Some (frame_of (prepare corridor_change))
  /\ exists df' c,
       analyze_routes (frame_of (prepare corridor_change)) = Some df'
       /\ df' !! 1%nat = Some c
       /\ category_route (lineage c) <> CHANGED
       /\ exists j p, (j < 1)%nat /\ df' !! j = Some p
                      /\ old_text_route_number (lineage c)
                         = Some (text_route_number (data p))
                      /\ linkable (data c) (data p) = true.
Proof.
  split; [reflexivity|].
  destruct (changed_only_within_corridor scalar_Int64 iso_date decimal_uint32
              corridor_change (frame_of (prepare corridor_change)) eq_refl)
    as (df' & Hrun & Hrows).
  pose proof Hrun as Hval. vm_compute in Hval. injection Hval as Hval.
  destruct (lookup_lt_is_Some_2 df' 1%nat) as [c Hc].
  { rewrite (analyze_routes_length _ _ Hrun). vm_compute. lia. }
  destruct (Hrows 1%nat c Hc) as (_ & _ & Hold).
  assert (Hc2 := Hc). rewrite <- Hval in Hc2. vm_compute in Hc2.
  injection Hc2 as Hc2.
  destruct (Hold "М_1") as (j & p & Hlt & Hp & Hs & Hlink & _).
  { by rewrite <- Hc2. }
  exists df', c. split; [exact Hrun|]. split; [exact Hc|]. split.
  - rewrite <- Hc2. discriminate.
  - exists j, p. split; [exact Hlt|]. split; [exact Hp|]. split; [|exact Hlink].
    rewrite <- Hs. by rewrite <- Hc2.
Defined.

(** C2 as stated fails: for the third route of [corridor_detour] the first
    candidate that passes all four conditions is the first route, the second
    route failing the fourth; the third route is CHANGED, and its
    [old_text_route_number] names the second route. *)
Lemma nearest_match_counterexample :
  exists df' c p1 p0,
    classify corridor_detour = Some df'
    /\ df' !! 2%nat = Some c /\ df' !! 1%nat = Some p1 /\ df' !! 0%nat = Some p0
    /\ full_match (data c) (data p1) = false
    /\ full_match (data c) (data p0) = true
    /\ category_route (lineage c) = CHANGED
    /\ old_text_route_number (lineage c) = Some (text_route_number (data p1))
    /\ old_text_route_number (lineage c) <> Some (text_route_number (data p0)).
Proof.
  eexists _, _, _, _. split; [vm_compute; reflexivity|].
  repeat split; try reflexivity. discriminate.
Qed.

(** The fixture of the tests: for the third record the first full match is
    the first record, the second record not being linkable. *)
Lemma first_full_match_wins_witness :
  prepare sample_data = Some (frame_of (prepare sample_data))
  /\ analyze_routes (frame_of (prepare sample_data))
     = Some (frame_of (classify sample_data))
  /\ exists c, frame_of (classify sample_data) !! 2%nat = Some c
               /\ category_route (lineage c) = CHANGED
               /\ old_text_route_number (lineage c) = Some "М_1001".
Proof.
  split; [reflexivity|]. split; [reflexivity|].
  destruct (frame_of (classify sample_data) !! 2%nat) as [c|] eqn:Hc;
    [|vm_compute in Hc; discriminate Hc].
  destruct (frame_of (classify sample_data) !! 0%nat) as [p|] eqn:Hp;
    [|vm_compute in Hp; discriminate Hp].
  exists c. split; [reflexivity|].
  assert (Hcv := Hc). vm_compute in Hcv. injection Hcv as Hcv.
  assert (Hpv := Hp). vm_compute in Hpv. injection Hpv as Hpv.
  assert (Hbetween : forall k q, (0 < k < 2)%nat ->
            frame_of (classify sample_data) !! k = Some q ->
            linkable (data c) (data q) = false).
  { intros k q Hk Hq. assert (k = 1%nat) as -> by lia.
    vm_compute in Hq. injection Hq as <-. rewrite <- Hcv. reflexivity. }
  destruct (first_full_match_wins scalar_Int64 iso_date decimal_uint32
              sample_data (frame_of (prepare sample_data))
              (frame_of (classify sample_data)) 2%nat 0%nat c p
              eq_refl eq_refl ltac:(lia) Hc Hp)
    as (Hcat & _ & Hold & _).
  - rewrite <- Hcv, <- Hpv. reflexivity.
  - intros k q Hk Hq. unfold full_match. by rewrite (Hbetween k q Hk Hq).
  - split; [exact Hcat|]. rewrite (Hold Hbetween), <- Hpv. reflexivity.
Defined.

(** ** Dates of a record and of its predecessor *)

Lemma different_date_null c p :
  route_min_date c = None \/ route_min_date p = None ->
  different_date c p = true.
Proof.
  unfold different_date.
  destruct (route_min_date c), (route_min_date p); simpl; intuition discriminate.
Qed.

Lemma linkable_different_date c p :
  linkable c p = true -> different_date c p = true.
Proof.
  unfold linkable. rewrite !andb_true_iff. tauto.
Qed.

Section Dates.

Variable astype_Int64 : scalar -> option (option Z).
Variable to_datetime_coerce : string -> option date.
Variable astype_uint32 : string -> option Z.

Local Abbreviation prepare_data' :=
  (prepare_data astype_Int64 to_datetime_coerce astype_uint32).

(** In a prepared frame, a dated record that passes the first condition
    with an earlier position is strictly later in date. *)
Lemma prepared_earlier raw (df : DataFrame) j i cj ci d :
  prepare_data' raw = Some df ->
  (j < i)%nat -> df !! j = Some cj -> df !! i = Some ci ->
  route_min_date (data ci) = Some d ->
  different_date (data ci) (data cj) = true ->
  exists d', route_min_date (data cj) = Some d' /\ date_ltb d' d = true.
Proof.
  intros Hprep Hji Hj Hi Hd Hdiff.
  pose proof (prepare_data_sorted _ _ _ raw df j i cj ci Hprep Hji Hj Hi) as Hs.
  unfold different_date in Hdiff. rewrite Hd in Hs, Hdiff.
  destruct (route_min_date (data cj)) as [d'|]; [|discriminate].
  exists d'. split; [reflexivity|]. simpl in Hs, Hdiff.
  apply negb_true_iff in Hdiff.
  destruct (date_total d' d) as [H|[H|H]]; [exact H| |congruence].
  apply date_eqb_eq in H as ->.
  rewrite (proj2 (date_eqb_eq d d) eq_refl) in Hdiff. discriminate.
Qed.

(** C4, as the code has it. In a prepared and classified frame, a record
    with a date that names a predecessor got it from an earlier position
    whose record carries that route number and a strictly earlier date. When
    the route numbers are distinct, that is the one record of that route
    number, and of two records with the same date neither names the other.
    Nothing of the kind holds for a record whose date is null. *)
Theorem predecessor_strictly_earlier raw (df : DataFrame) :
  prepare_data' raw = Some df ->
  exists df',
    analyze_routes df = Some df'
    /\ (forall i c d s,
           df' !! i = Some c ->
           route_min_date (data c) = Some d ->
           old_text_route_number (lineage c) = Some s ->
           exists k p d',
             (k < i)%nat /\ df' !! k = Some p
             /\ text_route_number (data p) = s
             /\ route_min_date (data p) = Some d' /\ date_ltb d' d = true)
    /\ (NoDup (text_route_number <$> (data <$> df')) ->
        (forall i k c p d,
            df' !! i = Some c -> df' !! k = Some p ->
            route_min_date (data c) = Some d ->
            old_text_route_number (lineage c) = Some (text_route_number (data p)) ->
            (k < i)%nat
            /\ exists d', route_min_date (data p) = Some d'
                          /\ date_ltb d' d = true)
        /\ (forall i k c p d,
               df' !! i = Some c -> df' !! k = Some p ->
               route_min_date (data c) = Some d ->
               route_min_date (data p) = Some d ->
               old_text_route_number (lineage c)
                 <> Some (text_route_number (data p))
               /\ old_text_route_number (lineage p)
                    <> Some (text_route_number (data c)))).
Proof.
  intros Hprep.
  pose proof (analyze_routes_classified df) as Hrun.
  assert (Hsome : forall i c d s,
             imap (classified (data <$> df)) df !! i = Some c ->
             route_min_date (data c) = Some d ->
             old_text_route_number (lineage c) = Some s ->
             exists k p d',
               (k < i)%nat /\ imap (classified (data <$> df)) df !! k = Some p
               /\ text_route_number (data p) = s
               /\ route_min_date (data p) = Some d' /\ date_ltb d' d = true).
  { intros i c' d s Hc' Hd Hold.
    destruct (analyze_routes_row _ _ i c' Hrun Hc') as (c & Hc & Hdc & _).
    destruct (prepared_provenance _ _ _ raw df i c Hprep Hc) as [_ Hnone].
    destruct (analyze_routes_provenance _ _ i c c' Hrun Hc Hc' Hnone)
      as [[Hp _]|(k & p' & Hlt & Hp' & Hlink & _ & Hprov)].
    { injection Hp as Hp _ _. congruence. }
    injection Hprov as Hold' _ _.
    destruct (analyze_routes_row _ _ k p' Hrun Hp') as (p & Hp & Hdp & _).
    destruct (prepared_earlier raw df k i p c d Hprep Hlt Hp Hc) as (d' & Hd' & Hlt').
    { congruence. }
    { rewrite <- Hdc, <- Hdp. by apply linkable_different_date. }
    exists k, p', d'. split; [exact Hlt|]. split; [exact Hp'|].
    split; [congruence|]. split; [congruence|exact Hlt']. }
  eexists. split; [exact Hrun|]. split; [exact Hsome|].
  intros Hdup.
  assert (Hearlier : forall i k c p d,
             imap (classified (data <$> df)) df !! i = Some c ->
             imap (classified (data <$> df)) df !! k = Some p ->
             route_min_date (data c) = Some d ->
             old_text_route_number (lineage c) = Some (text_route_number (data p)) ->
             (k < i)%nat
             /\ exists d', route_min_date (data p) = Some d' /\ date_ltb d' d = true).
  { intros i k c p d Hc Hp Hd Hold.
    destruct (Hsome i c d _ Hc Hd Hold) as (j & q & d' & Hlt & Hq & Hnum & Hd' & Hlt').
    assert (j = k) as ->.
    { apply (NoDup_lookup _ j k (text_route_number (data p)) Hdup).
      - rewrite !list_lookup_fmap, Hq. simpl. congruence.
      - rewrite !list_lookup_fmap, Hp. reflexivity. }
    assert (q = p) as -> by congruence. eauto. }
  split; [exact Hearlier|].
  intros i k c p d Hc Hp Hdc Hdp. split; intros Hold.
  - destruct (Hearlier i k c p d Hc Hp Hdc Hold) as (_ & d' & Hd' & Hlt).
    assert (d' = d) as -> by congruence.
    rewrite date_ltb_irrefl in Hlt. discriminate.
  - destruct (Hearlier k i p c d Hp Hc Hdp Hold) as (_ & d' & Hd' & Hlt).
    assert (d' = d) as -> by congruence.
    rewrite date_ltb_irrefl in Hlt. discriminate.
Qed.

(** C5, as the code has it. A row whose date text does not parse is kept:
    the classified frame has as many rows as the input, and one of them
    carries the route number of that row with a null date, no dated record
    after it. The null date passes the first condition with every record,
    null-dated or not, so the record is classified like any other: it is
    CHANGED exactly when an earlier position passes conditions 2 to 4 with
    it, and a later record that passes conditions 2 and 3 with it is given a
    predecessor. *)
Theorem undated_record_is_classified raw (df : DataFrame) r :
  prepare_data' raw = Some df ->
  r ∈ raw ->
  to_datetime_coerce (raw_route_min_date r) = None ->
  exists df',
    analyze_routes df = Some df'
    /\ length df' = length raw
    /\ exists i c,
         df' !! i = Some c
         /\ text_route_number (data c) = raw_text_route_number r
         /\ route_min_date (data c) = None
         /\ (forall k q, (i < k)%nat -> df' !! k = Some q ->
                         route_min_date (data q) = None)
         /\ (forall q, different_date (data c) q = true
                       /\ different_date q (data c) = true)
         /\ (category_route (lineage c) = CHANGED
             <-> exists j p, (j < i)%nat /\ df' !! j = Some p
                             /\ same_transport (data c) (data p) = true
                             /\ enough_matches (data c) (data p) = true
                             /\ same_corridor (data c) (data p) = true)
         /\ (forall k q, (i < k)%nat -> df' !! k = Some q ->
                         same_transport (data q) (data c) = true ->
                         enough_matches (data q) (data c) = true ->
                         is_Some (old_text_route_number (lineage q))).
Proof.
  intros Hprep Hin Hnull.
  pose proof (analyze_routes_classified df) as Hrun.
  pose proof (analyze_routes_data _ _ Hrun) as Hdata.
  eexists. split; [exact Hrun|].
  split. { rewrite length_imap. exact (prepare_data_length _ _ _ raw df Hprep). }
  destruct (prepare_data_perm _ _ _ raw df Hprep) as (rows & Hcast & Hperm).
  destruct (proj1 (list_elem_of_lookup raw r) Hin) as [n Hn].
  destruct (Forall2_lookup_l _ _ _ _ _ Hcast Hn) as (d & Hd & Hcd).
  destruct (cast_row_date _ _ r d Hcd) as [Hdate Hnum].
  assert (Hdin : d ∈ data <$> df).
  { rewrite Hperm. eapply list_elem_of_lookup_2. exact Hd. }
  apply list_elem_of_lookup in Hdin as [i Hi].
  apply lookup_data in Hi as (c0 & Hc0 & <-).
  exists i, (classified (data <$> df) i c0).
  assert (Hc' : imap (classified (data <$> df)) df !! i
                = Some (classified (data <$> df) i c0)).
  { by rewrite list_lookup_imap, Hc0. }
  rewrite classified_data.
  assert (Hnone : route_min_date (data c0) = None) by congruence.
  split; [exact Hc'|]. split; [exact Hnum|]. split; [exact Hnone|].
  split; [|split; [|split]].
  - intros k q' Hk Hq'.
    destruct (analyze_routes_row _ _ k q' Hrun Hq') as (q & Hq & -> & _).
    pose proof (prepare_data_sorted _ _ _ raw df i k c0 q Hprep Hk Hc0 Hq) as Hs.
    rewrite Hnone in Hs. by destruct (route_min_date (data q)).
  - intros q. split; apply different_date_null; auto.
  - destruct (prepared_provenance _ _ _ raw df i c0 Hprep Hc0) as [Hnew _].
    pose proof (analyze_routes_category _ _ i c0 _ Hrun Hc0 Hc') as Hcat.
    rewrite classified_data in Hcat. rewrite Hcat.
    unfold full_match, linkable. split.
    + intros [H|(j & p & Hlt & Hp & H)]; [congruence|].
      rewrite !andb_true_iff in H. exists j, p. tauto.
    + intros (j & p & Hlt & Hp & H2 & H3 & H4). right. exists j, p.
      rewrite H2, H3, H4, different_date_null by auto. done.
  - intros k q' Hk Hq' H2 H3.
    destruct (analyze_routes_row _ _ k q' Hrun Hq') as (q & Hq & Hdq & _).
    destruct (prepared_provenance _ _ _ raw df k q Hprep Hq) as [_ Hqnone].
    destruct (analyze_routes_provenance _ _ k q q' Hrun Hq Hq' Hqnone)
      as [[_ Hno]|(j & p & _ & _ & _ & _ & Hprov)].
    + specialize (Hno i _ Hk Hc'). rewrite classified_data in Hno.
      unfold linkable in Hno.
      rewrite H2, H3, different_date_null in Hno by auto. discriminate.
    + injection Hprov as -> _ _. eauto.
Qed.

End Dates.

(** C4 as stated fails: on [undated_routes] the second record names the
    first as its predecessor, and the date of the first, null like that of
    the second, is not earlier. *)
Lemma undated_predecessor_counterexample :
  exists df' c p,
    classify undated_routes = Some df'
    /\ df' = [p; c]
    /\ text_route_number (data p) <> text_route_number (data c)
    /\ old_text_route_number (lineage c) = Some (text_route_number (data p))
    /\ route_min_date (data p) = route_min_date (data c)
    /\ date_key_ltb (route_min_date (data p)) (route_min_date (data c)) = false.
Proof.
  eexists _, _, _. split; [vm_compute; reflexivity|].
  repeat split; try reflexivity. discriminate.
Qed.

(** The fixture of the tests: the fourth record, dated 2024-03-02, names
    the third, dated 2024-03-01. *)
Lemma predecessor_strictly_earlier_witness :
  prepare sample_data = Some (frame_of (prepare sample_data))
  /\ exists df' c,
       analyze_routes (frame_of (prepare sample_data)) = Some df'
       /\ df' !! 3%nat = Some c
       /\ route_min_date (data c) = Some (mkDate 2024 3 2)
       /\ exists k p d',
            (k < 3)%nat /\ df' !! k = Some p
            /\ text_route_number (data p) = "М_1003"
            /\ route_min_date (data p) = Some d'
            /\ date_ltb d' (mkDate 2024 3 2) = true.
Proof.
  split; [reflexivity|].
  destruct (predecessor_strictly_earlier scalar_Int64 iso_date decimal_uint32
              sample_data (frame_of (prepare sample_data)) eq_refl)
    as (df' & Hrun & Hsome & _).
  pose proof Hrun as Hval. vm_compute in Hval. injection Hval as Hval.
  subst df'.
  eexists _, _. split; [exact Hrun|]. split; [reflexivity|].
  split; [reflexivity|].
  exact (Hsome 3%nat _ (mkDate 2024 3 2) "М_1003" eq_refl eq_refl eq_refl).
Defined.

(** C5 as stated fails: on [undated_routes] no date parses; the second
    record is the current record of a match, with the first as candidate,
    and ends CHANGED. *)
Lemma undated_record_counterexample :
  Forall (fun r => iso_date (raw_route_min_date r) = None) undated_routes
  /\ exists df' c p,
       classify undated_routes = Some df'
       /\ df' = [p; c]
       /\ route_min_date (data c) = None /\ route_min_date (data p) = None
       /\ full_match (data c) (data p) = true
       /\ category_route (lineage c) = CHANGED
       /\ old_text_route_number (lineage c) = Some (text_route_number (data p)).
Proof.
  split; [repeat constructor|].
  eexists _, _, _. split; [vm_compute; reflexivity|].
  repeat split; reflexivity.
Qed.

(** On [one_undated_route] the undated record is sorted last and linked to
    the dated one. *)
Lemma undated_record_is_classified_witness :
  prepare one_undated_route = Some (frame_of (prepare one_undated_route))
  /\ iso_date "not a date" = None
  /\ exists df' i c,
       analyze_routes (frame_of (prepare one_undated_route)) = Some df'
       /\ length df' = 2%nat
       /\ df' !! i = Some c
       /\ text_route_number (data c) = "М_1"
       /\ route_min_date (data c) = None
       /\ (category_route (lineage c) = CHANGED
           <-> exists j p, (j < i)%nat /\ df' !! j = Some p
                           /\ same_transport (data c) (data p) = true
                           /\ enough_matches (data c) (data p) = true
                           /\ same_corridor (data c) (data p) = true).
Proof.
  split; [reflexivity|]. split; [reflexivity|].
  destruct (undated_record_is_classified scalar_Int64 iso_date decimal_uint32
              one_undated_route (frame_of (prepare one_undated_route))
              (raw_row "М_1" "TYPE1" "not a date" "001" "100" "PAYER1" "SHIP1" "CONS1")
              eq_refl)
    as (df' & Hrun & Hlen & i & c & Hc & Hnum & Hdate & _ & _ & Hcat & _).
  - apply list_elem_of_here.
  - reflexivity.
  - exists df', i, c. repeat (split; [assumption|]). exact Hcat.
Defined.

(** ** A route number that does not cast *)

Section Malformed.

Variable astype_Int64 : scalar -> option (option Z).
Variable to_datetime_coerce : string -> option date.
Variable astype_uint32 : string -> option Z.

(** C6, as the code has it. When the source returns a row whose route
    number, the prefix removed, does not cast to uint32, [prepare_data]
    raises for the whole frame and [run] does not catch it: the run ends in
    that exception after the fetch, with no record classified, no audit file
    and no insert. *)
Theorem malformed_route_number_aborts (w : World) raw r (t : list event) :
  query_rows w = Some raw ->
  r ∈ raw ->
  astype_uint32 (str_remove ROUTE_PREFIX (raw_text_route_number r)) = None ->
  prepare_data astype_Int64 to_datetime_coerce astype_uint32 raw = None
  /\ run astype_Int64 to_datetime_coerce astype_uint32 w t
     = ((t ++ [Log INFO "Starting route analysis process.";
               Log INFO "Fetching data from ClickHouse...";
               Query "SELECT * FROM new_route_rf WHERE text_route_number_count == '1'";
               Log INFO "Fetched rows of data.";
               Log INFO "Preparing data for analysis..."])%list,
        Raised "prepare_data").
Proof.
  intros Hq Hin Hbad.
  pose proof (prepare_data_malformed astype_Int64 to_datetime_coerce
                astype_uint32 raw r Hin Hbad) as Hnone.
  split; [exact Hnone|].
  destruct raw as [|r0 raw']; [by apply elem_of_nil in Hin|].
  cbv [run fetch_data try_except bind emit logger raise ret sys_exit lift].
  rewrite Hq. cbv beta iota. rewrite Hnone. by rewrite <- !List.app_assoc.
Qed.

End Malformed.

(** C6 as stated fails: the second row of [malformed_route_number] has a
    route number that is the bare prefix. [prepare_data] raises, and a run
    whose source returns these rows, and whose writes would both succeed,
    ends in that exception without an audit file or an insert. *)
Lemma malformed_route_number_counterexample :
  exists r,
    r ∈ malformed_route_number
    /\ raw_text_route_number r = ROUTE_PREFIX
    /\ classify malformed_route_number = None
    /\ forall t o,
         run scalar_Int64 iso_date decimal_uint32
             (mkWorld (Some malformed_route_number) (fun df => df) false false) []
         = (t, o) ->
         o = Raised "prepare_data"
         /\ forall e, e ∈ t -> forall f df, e <> ToCsv f df /\ e <> InsertDf f df.
Proof.
  eexists. split; [apply list_elem_of_further, list_elem_of_here|].
  split; [reflexivity|]. split; [reflexivity|].
  intros t o Hrun. vm_compute in Hrun. injection Hrun as <- <-.
  split; [reflexivity|].
  intros e He f df.
  repeat (apply elem_of_cons in He as [->|He]; [split; discriminate|]).
  by apply elem_of_nil in He.
Qed.

(** The run on [malformed_route_number]. *)
Lemma malformed_route_number_aborts_witness :
  malformed_route_number !! 1%nat
  = Some (raw_row "М_" "TYPE1" "2024-02-01" "001" "100" "PAYER1" "SHIP1" "CONS1")
  /\ decimal_uint32 (str_remove ROUTE_PREFIX "М_") = None
  /\ prepare malformed_route_number = None
  /\ snd (run scalar_Int64 iso_date decimal_uint32
              (mkWorld (Some malformed_route_number) (fun df => df) false false) [])
     = Raised "prepare_data".
Proof.
  split; [reflexivity|]. split; [reflexivity|].
  destruct (malformed_route_number_aborts scalar_Int64 iso_date decimal_uint32
              (mkWorld (Some malformed_route_number) (fun df => df) false false)
              malformed_route_number
              (raw_row "М_" "TYPE1" "2024-02-01" "001" "100" "PAYER1" "SHIP1" "CONS1")
              [] eq_refl)
    as [Hprep Hrun].
  - apply list_elem_of_further, list_elem_of_here.
  - reflexivity.
  - split; [exact Hprep|]. by rewrite Hrun.
Defined.

(** ** The tests of tests/test_main.py *)

(** test_analyze_routes *)
Example test_analyze_routes :
  (category_route ∘ lineage) <$> frame_of (classify sample_data)
  = [NEW; NEW; CHANGED; CHANGED; NEW].
Proof. reflexivity. Qed.

(** test_compare_and_update_routes, the first three comparisons: each call
    is made on the frame the call before it left. *)
Example test_compare_and_update_routes :
  exists df1 df2 df3 c,
    compare_and_update_routes (frame_of (prepare sample_data)) 2 0 = Some (df1, true)
    /\ df1 !! 2%nat = Some c
    /\ old_text_route_number (lineage c) = Some "М_1001"
    /\ compare_and_update_routes df1 1 0 = Some (df2, false)
    /\ compare_and_update_routes df2 4 0 = Some (df3, false).
Proof.
  eexists _, _, _, _. split; [vm_compute; reflexivity|].
  split; [reflexivity|]. split; [reflexivity|].
  split; [vm_compute; reflexivity|]. vm_compute; reflexivity.
Qed.

(** test_save_to_file_error: a failing [to_csv] does not make
    [save_to_file] raise. *)
Example test_save_to_file_error (df : DataFrame) :
  snd (save_to_file (mkWorld None (fun d => d) true false) df "output.csv" [])
  = Returned tt.
Proof. by rewrite save_to_file_returns. Qed.

(** * Further properties of the classifier *)

(** ** One call of compare_and_update_routes *)

Lemma py_date_eq_sym a b : py_date_eq a b = py_date_eq b a.
Proof.
  destruct a as [x|], b as [y|]; simpl; try reflexivity.
  destruct (date_eqb x y) eqn:H.
  - apply date_eqb_eq in H as ->. symmetry. by apply date_eqb_eq.
  - destruct (date_eqb y x) eqn:H'; [|reflexivity].
    apply date_eqb_eq in H' as ->.
    rewrite (proj2 (date_eqb_eq x x) eq_refl) in H. discriminate.
Qed.

Lemma py_ne_sym a b : py_ne a b = py_ne b a.
Proof.
  destruct a as [x|], b as [y|]; simpl; try reflexivity.
  by rewrite String.eqb_sym.
Qed.

Lemma series_eq_sym a b : series_eq a b = series_eq b a.
Proof.
  destruct a as [x|], b as [y|]; simpl; try reflexivity.
  apply String.eqb_sym.
Qed.

Lemma matching_values_sym c p : matching_values c p = matching_values p c.
Proof.
  unfold matching_values. apply map_ext. intros k.
  by rewrite series_eq_sym.
Qed.

Lemma full_match_sym c p : full_match c p = full_match p c.
Proof.
  unfold full_match, linkable, different_date, same_transport, enough_matches,
    match_count, same_corridor.
  by rewrite py_date_eq_sym, py_ne_sym, (matching_values_sym c p).
Qed.


(** X2. A call that returns leaves the frame at its length and writes at
    most the current row, of which it keeps every input column and the
    category: only the three provenance cells can differ, and they differ
    only if [old_text_route_number] was null before and names the route
    number of the previous row after. *)
Theorem compare_and_update_routes_writes_provenance_only
    (df df' : DataFrame) i j b :
  compare_and_update_routes df i j = Some (df', b) ->
  length df' = length df
  /\ (forall k, k <> i -> df' !! k = df !! k)
  /\ exists c c' p,
       df !! i = Some c /\ df' !! i = Some c' /\ df !! j = Some p
       /\ data c' = data c
       /\ category_route (lineage c') = category_route (lineage c)
       /\ (c' = c
           \/ (old_text_route_number (lineage c) = None
               /\ old_text_route_number (lineage c')
                  = Some (text_route_number (data p)))).
Proof.
  intros Hcall.
  destruct (df !! i) as [c|] eqn:Hi; cycle 1.
  { unfold compare_and_update_routes in Hcall. by rewrite Hi in Hcall. }
  destruct (df !! j) as [p|] eqn:Hj; cycle 1.
  { unfold compare_and_update_routes in Hcall. by rewrite Hi, Hj in Hcall. }
  rewrite (compare_and_update_routes_step df i j c p Hi Hj) in Hcall.
  injection Hcall as <- <-.
  split; [apply length_insert|].
  split. { intros k Hk. by apply list_lookup_insert_ne. }
  exists c, (fst (compare_step c (data p))), p.
  split; [reflexivity|].
  split. { apply list_lookup_insert_eq. by apply lookup_lt_Some in Hi. }
  split; [reflexivity|].
  split; [apply compare_step_data|].
  unfold compare_step.
  destruct (linkable (data c) (data p)); simpl; [|by auto].
  destruct (old_text_route_number (lineage c)) eqn:Hold; simpl; by auto.
Qed.

(** X3. A candidate rejected by one of the three early returns (equal
    dates, different transport types, fewer than three equal key columns)
    gives [False] and leaves the whole frame as it was. *)
Theorem compare_and_update_routes_early_return (df df' : DataFrame) i j c p b :
  df !! i = Some c -> df !! j = Some p ->
  py_date_eq (route_min_date (data c)) (route_min_date (data p)) = true
  \/ py_ne (type_of_transportation (data c))
           (type_of_transportation (data p)) = true
  \/ match_count (data c) (data p) < MIN_MATCHING_KEY_THRESHOLD ->
  compare_and_update_routes df i j = Some (df', b) ->
  df' = df /\ b = false.
Proof.
  intros Hi Hj Hrej Hcall.
  rewrite (compare_and_update_routes_step df i j c p Hi Hj) in Hcall.
  assert (Hl : linkable (data c) (data p) = false).
  { unfold linkable, different_date, same_transport, enough_matches.
    destruct Hrej as [H|[H|H]].
    - by rewrite H.
    - rewrite H. apply andb_false_iff. left. apply andb_false_r.
    - apply andb_false_iff. right. by apply Z.leb_gt. }
  unfold compare_step in Hcall. rewrite Hl in Hcall. simpl in Hcall.
  injection Hcall as <- <-. split; [by apply list_insert_id|reflexivity].
Qed.

(** X4. The returned bool does not depend on which of the two rows is the
    current one. *)
Theorem compare_and_update_routes_symmetric (df df1 df2 : DataFrame) i j b1 b2 :
  compare_and_update_routes df i j = Some (df1, b1) ->
  compare_and_update_routes df j i = Some (df2, b2) ->
  b1 = b2.
Proof.
  intros H1 H2.
  destruct (df !! i) as [c|] eqn:Hi; cycle 1.
  { unfold compare_and_update_routes in H1. by rewrite Hi in H1. }
  destruct (df !! j) as [p|] eqn:Hj; cycle 1.
  { unfold compare_and_update_routes in H1. by rewrite Hi, Hj in H1. }
  rewrite (compare_and_update_routes_step df i j c p Hi Hj) in H1.
  rewrite (compare_and_update_routes_step df j i p c Hj Hi) in H2.
  injection H1 as _ <-. injection H2 as _ <-.
  assert (Hv : forall x y, snd (compare_step x (data y))
                           = full_match (data x) (data y)).
  { intros x y. unfold compare_step, full_match.
    by destruct (linkable (data x) (data y)). }
  rewrite !Hv. apply full_match_sym.
Qed.

(** X5. A call returns [True] only for two rows whose departure and
    destination codes are set and equal and whose transport types are equal;
    the key columns on which they disagree are then among payer, shipper and
    consignee, two at most. *)
Theorem compare_and_update_routes_true (df df' : DataFrame) i j c p :
  df !! i = Some c -> df !! j = Some p ->
  compare_and_update_routes df i j = Some (df', true) ->
  (exists a, departure_station_code_of_rf (data c) = Some a
             /\ departure_station_code_of_rf (data p) = Some a)
  /\ (exists a, destination_station_code_of_rf (data c) = Some a
                /\ destination_station_code_of_rf (data p) = Some a)
  /\ type_of_transportation (data c) = type_of_transportation (data p)
  /\ changed_fields (data c) (data p) ⊆ [payer; shipper; consignee]
  /\ (length (changed_fields (data c) (data p)) <= 2)%nat.
Proof.
  intros Hi Hj Hcall.
  rewrite (compare_and_update_routes_step df i j c p Hi Hj) in Hcall.
  injection Hcall as _ Hb.
  unfold compare_step in Hb.
  destruct (linkable (data c) (data p)) eqn:Hl; simpl in Hb; [|discriminate].
  pose proof Hb as Hcorr. apply same_corridor_true in Hcorr as [Hdep Hdest].
  split; [by apply series_eq_true|]. split; [by apply series_eq_true|].
  split; [|split; [|by apply linkable_enough]].
  - unfold linkable, same_transport in Hl.
    apply andb_true_iff in Hl as [[_ Ht]%andb_true_iff _].
    destruct (type_of_transportation (data c)) as [x|],
             (type_of_transportation (data p)) as [y|];
      simpl in Ht; try discriminate; [|reflexivity].
    rewrite negb_involutive in Ht. by apply String.eqb_eq in Ht as ->.
  - rewrite changed_fields_filter. unfold key_columns. simpl.
    rewrite Hdep, Hdest. simpl.
    destruct (series_eq (payer_of_the_railway_tariff_unified (data c)) _),
             (series_eq (shipper_okpo (data c)) _),
             (series_eq (consignee_okpo (data c)) _);
      simpl; intros k; rewrite !elem_of_cons; tauto.
Qed.

(** The third and first records of the fixture: the call links them. *)
Lemma compare_and_update_routes_writes_provenance_only_witness :
  exists df',
    compare_and_update_routes (frame_of (prepare sample_data)) 2 0
    = Some (df', true)
    /\ length df' = 5%nat
    /\ df' !! 4%nat = frame_of (prepare sample_data) !! 4%nat.
Proof.
  eexists. split; [vm_compute; reflexivity|].
  destruct (compare_and_update_routes_writes_provenance_only
              (frame_of (prepare sample_data)) _ 2 0 true eq_refl)
    as (Hlen & Hother & _).
  split; [exact Hlen|]. apply Hother. discriminate.
Defined.

(** The second and first records of the fixture differ in transport type. *)
Lemma compare_and_update_routes_early_return_witness :
  exists df',
    compare_and_update_routes (frame_of (prepare sample_data)) 1 0
    = Some (df', false)
    /\ df' = frame_of (prepare sample_data).
Proof.
  eexists. split; [vm_compute; reflexivity|].
  refine (proj1 (compare_and_update_routes_early_return
                   (frame_of (prepare sample_data)) _ 1 0 _ _ false
                   eq_refl eq_refl _ eq_refl)).
  right. left. reflexivity.
Defined.

(** The third and first records of the fixture, compared both ways. *)
Lemma compare_and_update_routes_symmetric_witness :
  exists df1 df2 b,
    compare_and_update_routes (frame_of (prepare sample_data)) 2 0 = Some (df1, true)
    /\ compare_and_update_routes (frame_of (prepare sample_data)) 0 2 = Some (df2, b)
    /\ true = b.
Proof.
  eexists _, _, _. split; [vm_compute; reflexivity|].
  split; [vm_compute; reflexivity|].
  exact (compare_and_update_routes_symmetric
           (frame_of (prepare sample_data)) _ _ 2 0 true _ eq_refl eq_refl).
Defined.

(** The third and first records of the fixture share the corridor 001 to
    100. *)
Lemma compare_and_update_routes_true_witness :
  exists c p,
    frame_of (prepare sample_data) !! 2%nat = Some c
    /\ frame_of (prepare sample_data) !! 0%nat = Some p
    /\ type_of_transportation (data c) = type_of_transportation (data p)
    /\ changed_fields (data c) (data p) ⊆ [payer; shipper; consignee].
Proof.
  eexists _, _. split; [reflexivity|]. split; [reflexivity|].
  destruct (compare_and_update_routes_true
              (frame_of (prepare sample_data)) _ 2 0 _ _
              eq_refl eq_refl eq_refl)
    as (_ & _ & Ht & Hsub & _).
  split; [exact Ht|exact Hsub].
Defined.

(** ** The run of analyze_routes *)

Lemma nearest_prefix P (ds ds2 : list RouteData) n :
  (forall k, (k < n)%nat -> ds2 !! k = ds !! k) ->
  nearest P ds2 n = nearest P ds n.
Proof.
  induction n as [|m IH]; intros Hsame; simpl; [reflexivity|].
  rewrite Hsame by lia. rewrite IH by (intros k Hk; apply Hsame; lia).
  reflexivity.
Qed.

Lemma classified_prefix (ds ds2 : list RouteData) i c :
  (forall k, (k < i)%nat -> ds2 !! k = ds !! k) ->
  classified ds2 i c = classified ds i c.
Proof.
  intros Hsame. unfold classified.
  rewrite !(nearest_prefix _ ds ds2 i Hsame).
  destruct (nearest (linkable (data c)) ds i) as [j|] eqn:Hn; [|reflexivity].
  destruct (nearest_Some _ _ _ _ Hn) as (Hlt & _ & _).
  by rewrite Hsame.
Qed.

(** X6. [analyze_routes] returns on every frame, whatever its columns
    hold: no position it passes to [iloc] is outside the frame. The result
    has the rows of the argument in the same order, every input column as it
    was; a row that was CHANGED is still CHANGED, and a row that was NEW is
    CHANGED after the run exactly when an earlier row passes all four
    conditions with it. *)
Theorem analyze_routes_keeps_rows (df : DataFrame) :
  exists df',
    analyze_routes df = Some df'
    /\ length df' = length df
    /\ data <$> df' = data <$> df
    /\ forall i c c',
         df !! i = Some c -> df' !! i = Some c' ->
         (category_route (lineage c) = CHANGED ->
          category_route (lineage c') = CHANGED)
         /\ (category_route (lineage c) = NEW ->
             (category_route (lineage c') = CHANGED
              <-> exists j p, (j < i)%nat /\ df !! j = Some p
                              /\ full_match (data c) (data p) = true)).
Proof.
  pose proof (analyze_routes_classified df) as Hrun.
  eexists. split; [exact Hrun|].
  split; [exact (analyze_routes_length _ _ Hrun)|].
  split; [exact (analyze_routes_data _ _ Hrun)|].
  intros i c c' Hc Hc'.
  pose proof (analyze_routes_category _ _ i c c' Hrun Hc Hc') as Hcat.
  destruct (analyze_routes_row _ _ i c' Hrun Hc') as (c0 & Hc0 & Hd & _).
  assert (c0 = c) as -> by congruence.
  split; [intros H; apply Hcat; by left|].
  intros Hnew. rewrite Hcat, Hd. split.
  - intros [H|(j & p' & Hlt & Hp' & Hfull)]; [congruence|].
    destruct (analyze_routes_row _ _ j p' Hrun Hp') as (p & Hp & Hdp & _).
    exists j, p. rewrite <- Hdp. eauto.
  - intros (j & p & Hlt & Hp & Hfull). right.
    exists j, (classified (data <$> df) j p).
    split; [exact Hlt|]. split; [by rewrite list_lookup_imap, Hp|].
    by rewrite classified_data.
Qed.

(** X7. The classification of a record depends on the records before it
    only: classifying the first [n] rows of a frame gives the first [n] rows
    of the classified frame. *)
Theorem analyze_routes_take (df : DataFrame) (n : nat) :
  analyze_routes (take n df) = take n <$> analyze_routes df.
Proof.
  rewrite !analyze_routes_classified. simpl. f_equal.
  apply list_eq. intros i.
  rewrite list_lookup_imap.
  destruct (decide (i < n)%nat) as [Hlt|Hge].
  - rewrite !lookup_take_lt, list_lookup_imap by done.
    destruct (df !! i) as [c|]; simpl; [|reflexivity]. f_equal.
    apply classified_prefix. intros k Hk.
    rewrite !list_lookup_fmap, lookup_take_lt by lia. reflexivity.
  - rewrite !lookup_take_ge by lia. reflexivity.
Qed.

(** X8. The classifier links only records of one transport type: a record
    of a prepared and classified frame that names a predecessor got it from
    an earlier position whose record has that route number, the same
    transport type, a date cell that does not compare equal, and at least
    three key columns set and equal to its own. *)
Theorem predecessor_same_transport
    (astype_Int64 : scalar -> option (option Z))
    (to_datetime_coerce : string -> option date)
    (astype_uint32 : string -> option Z)
    raw (df df' : DataFrame) i c s :
  prepare_data astype_Int64 to_datetime_coerce astype_uint32 raw = Some df ->
  analyze_routes df = Some df' ->
  df' !! i = Some c ->
  old_text_route_number (lineage c) = Some s ->
  exists j p,
    (j < i)%nat /\ df' !! j = Some p
    /\ text_route_number (data p) = s
    /\ type_of_transportation (data p) = type_of_transportation (data c)
    /\ py_date_eq (route_min_date (data c)) (route_min_date (data p)) = false
    /\ (3 <= length (List.filter
                       (fun k => series_eq (key_value k (data c))
                                           (key_value k (data p)))
                       key_columns))%nat.
Proof.
  intros Hprep Hrun Hc' Hold.
  destruct (analyze_routes_row _ _ i c Hrun Hc') as (c0 & Hc0 & _ & _).
  destruct (prepared_provenance _ _ _ raw df i c0 Hprep Hc0) as [_ Hnone].
  destruct (analyze_routes_provenance _ _ i c0 c Hrun Hc0 Hc' Hnone)
    as [[Hp _]|(j & p & Hlt & Hp & Hlink & _ & Hprov)].
  { injection Hp as Hp _ _. congruence. }
  injection Hprov as Hold' _ _.
  exists j, p. split; [exact Hlt|]. split; [exact Hp|]. split; [congruence|].
  unfold linkable, different_date, same_transport, enough_matches in Hlink.
  apply andb_true_iff in Hlink as [[Hd Ht]%andb_true_iff Hm].
  split; [|split].
  - destruct (type_of_transportation (data c)) as [x|],
             (type_of_transportation (data p)) as [y|];
      simpl in Ht; try discriminate; [|reflexivity].
    rewrite negb_involutive in Ht. by apply String.eqb_eq in Ht as ->.
  - by apply negb_true_iff in Hd.
  - apply Z.leb_le in Hm. rewrite match_count_filter in Hm.
    unfold MIN_MATCHING_KEY_THRESHOLD in Hm. lia.
Qed.

(** The fixture of the tests: the fourth record names М_1003. *)
Lemma predecessor_same_transport_witness :
  exists c j p,
    frame_of (classify sample_data) !! 3%nat = Some c
    /\ (j < 3)%nat /\ frame_of (classify sample_data) !! j = Some p
    /\ text_route_number (data p) = "М_1003"
    /\ type_of_transportation (data p) = type_of_transportation (data c).
Proof.
  destruct (predecessor_same_transport scalar_Int64 iso_date decimal_uint32
              sample_data (frame_of (prepare sample_data))
              (frame_of (classify sample_data)) 3 _ "М_1003"
              eq_refl eq_refl eq_refl eq_refl)
    as (j & p & Hlt & Hp & Hnum & Ht & _).
  eexists _, j, p. split; [reflexivity|]. eauto.
Defined.

(** * Further properties of prepare_data *)


Section PrepareMore.

Variable astype_Int64 : scalar -> option (option Z).
Variable to_datetime_coerce : string -> option date.
Variable astype_uint32 : string -> option Z.

Local Abbreviation prepare_data' :=
  (prepare_data astype_Int64 to_datetime_coerce astype_uint32).
Local Abbreviation cast_row' := (cast_row astype_Int64 to_datetime_coerce).
Local Abbreviation suffix_of :=
  (fun r : RouteData =>
     astype_uint32 (str_remove ROUTE_PREFIX (text_route_number r))).

Lemma with_key_fst rows keyed :
  traverse (assign_route_number_int astype_uint32) rows = Some keyed ->
  Forall (fun kr => suffix_of (snd kr) = Some (fst kr)) keyed.
Proof.
  intros H. apply traverse_Some in H.
  induction H as [|r kr rows keyed Hr _ IH]; constructor; [|exact IH].
  unfold assign_route_number_int in Hr.
  destruct (astype_uint32 _) eqn:Hn; [|discriminate]. by injection Hr as <-.
Qed.

(** X9. The prepared frame is in the order of [sort_values]: of two rows,
    the earlier one has the earlier date, a null date counting as later than
    every date, or the two dates are the same and the earlier row has the
    smaller or the same numeric suffix. *)
Theorem prepare_data_in_sort_order raw (df : DataFrame) j i cj ci :
  prepare_data' raw = Some df ->
  (j < i)%nat -> df !! j = Some cj -> df !! i = Some ci ->
  exists nj ni,
    suffix_of (data cj) = Some nj /\ suffix_of (data ci) = Some ni
    /\ (date_key_ltb (route_min_date (data cj)) (route_min_date (data ci)) = true
        \/ (date_key_eqb (route_min_date (data cj)) (route_min_date (data ci))
            = true
            /\ nj <= ni)).
Proof.
  intros Hprep Hji Hj Hi.
  destruct (prepare_data_Some _ _ _ raw df Hprep) as (rows & keyed & _ & Hk & ->).
  change (map ?f ?l) with (f <$> l) in Hi, Hj.
  rewrite list_lookup_fmap in Hi, Hj.
  destruct (sort_values keyed !! i) as [ki|] eqn:Hki; simpl in Hi; [|discriminate].
  destruct (sort_values keyed !! j) as [kj|] eqn:Hkj; simpl in Hj; [|discriminate].
  injection Hi as <-. injection Hj as <-. simpl.
  pose proof (with_key_fst rows keyed Hk) as Hfst.
  rewrite <- (sort_values_perm keyed) in Hfst.
  rewrite Forall_forall in Hfst.
  exists (fst kj), (fst ki).
  split. { apply Hfst. eapply list_elem_of_lookup_2. exact Hkj. }
  split. { apply Hfst. eapply list_elem_of_lookup_2. exact Hki. }
  pose proof (StronglySorted_lookup_le key_le _ j i kj ki
                (sort_values_sorted keyed) Hji Hkj Hki) as Hle.
  unfold key_le, sort_key_leb in Hle.
  apply orb_true_iff in Hle as [Hlt|[Heq Hn]%andb_true_iff]; [by left|].
  right. split; [exact Heq|]. by apply Z.leb_le.
Qed.

(** X10. [prepare_data] neither drops nor repeats a row: the rows of the
    prepared frame are, in some order, the rows of the input with the four
    integer columns cast and the date parsed, every other column as it was.
    In particular the route numbers of the frame are those of the input, and
    every row starts NEW with the three provenance cells null. *)
Theorem prepare_data_keeps_rows raw (df : DataFrame) :
  prepare_data' raw = Some df ->
  (exists rows,
      Forall2 (fun r d => cast_row' r = Some d) raw rows
      /\ Permutation (data <$> df) rows)
  /\ Permutation (text_route_number <$> (data <$> df))
                 (raw_text_route_number <$> raw)
  /\ length df = length raw
  /\ Forall (fun c => lineage c = initial_lineage) df.
Proof.
  intros Hprep.
  destruct (prepare_data_perm _ _ _ raw df Hprep) as (rows & Hcast & Hperm).
  split; [eauto|]. split; [|split].
  - rewrite Hperm.
    assert (Hnum : text_route_number <$> rows = raw_text_route_number <$> raw).
    { clear Hperm Hprep. induction Hcast as [|r d raw rows Hrd _ IH]; [reflexivity|].
      simpl. f_equal; [|exact IH].
      by destruct (cast_row_date _ _ r d Hrd). }
    by rewrite Hnum.
  - exact (prepare_data_length _ _ _ raw df Hprep).
  - apply Forall_lookup. intros i c Hc.
    exact (prepare_data_lineage _ _ _ raw df i c Hprep Hc).
Qed.


End PrepareMore.

(** The fixture of the tests: the third and fourth records. *)
Lemma prepare_data_in_sort_order_witness :
  exists cj ci nj ni,
    frame_of (prepare sample_data) !! 2%nat = Some cj
    /\ frame_of (prepare sample_data) !! 3%nat = Some ci
    /\ decimal_uint32 (str_remove ROUTE_PREFIX (text_route_number (data cj)))
       = Some nj
    /\ decimal_uint32 (str_remove ROUTE_PREFIX (text_route_number (data ci)))
       = Some ni
    /\ (date_key_ltb (route_min_date (data cj)) (route_min_date (data ci)) = true
        \/ (date_key_eqb (route_min_date (data cj)) (route_min_date (data ci))
            = true
            /\ nj <= ni)).
Proof.
  destruct (prepare_data_in_sort_order scalar_Int64 iso_date decimal_uint32
              sample_data (frame_of (prepare sample_data)) 2 3 _ _
              eq_refl ltac:(lia) eq_refl eq_refl)
    as (nj & ni & Hnj & Hni & Horder).
  eexists _, _, nj, ni. split; [reflexivity|]. split; [reflexivity|]. eauto.
Defined.

(** The fixture of the tests keeps its five route numbers. *)
Lemma prepare_data_keeps_rows_witness :
  Permutation
    (text_route_number <$> (data <$> frame_of (prepare sample_data)))
    ["М_1001"; "М_1002"; "М_1003"; "М_1004"; "М_1005"]
  /\ length (frame_of (prepare sample_data)) = 5%nat.
Proof.
  destruct (prepare_data_keeps_rows scalar_Int64 iso_date decimal_uint32
              sample_data (frame_of (prepare sample_data)) eq_refl)
    as (_ & Hperm & Hlen & _).
  split; [exact Hperm|exact Hlen].
Defined.

(** ** The numeric suffix of a route number *)






(** * Further properties of the run *)

Lemma insert_data_trace w (df : DataFrame) t :
  insert_data w df t
  = ((t ++ [Log INFO "Inserting data into ClickHouse...";
            ToCsv "output.csv" (df_replace w df);
            (if to_csv_raises w
             then Log ERROR "Error saving DataFrame to file"
             else Log INFO "DataFrame saved to file");
            InsertDf table (df_replace w df);
            (if insert_df_raises w
             then Log ERROR "Error inserting data"
             else Log INFO "Data successfully inserted")])%list,
     if insert_df_raises w then SysExit 1 else Returned tt).
Proof.
  unfold insert_data, bind at 1 2.
  unfold logger at 1, emit at 1.
  rewrite save_to_file_returns.
  cbv [try_except insert_df bind emit logger raise ret sys_exit].
  destruct (insert_df_raises w); cbv beta iota; by rewrite <- !List.app_assoc.
Qed.

Section RunMore.

Variable astype_Int64 : scalar -> option (option Z).
Variable to_datetime_coerce : string -> option date.
Variable astype_uint32 : string -> option Z.


(** The events of [run] up to the call of [prepare_data]. *)
Local Abbreviation fetched :=
  [Log INFO "Starting route analysis process.";
   Log INFO "Fetching data from ClickHouse...";
   Query "SELECT * FROM new_route_rf WHERE text_route_number_count == '1'";
   Log INFO "Fetched rows of data.";
   Log INFO "Preparing data for analysis..."].

Lemma run_with_rows w rows t :
  query_rows w = Some rows -> rows <> [] ->
  run astype_Int64 to_datetime_coerce astype_uint32 w t
  = match prepare_data astype_Int64 to_datetime_coerce astype_uint32 rows with
    | None => ((t ++ fetched)%list, Raised "prepare_data")
    | Some df =>
      match analyze_routes df with
      | None => ((t ++ fetched ++ [Log INFO "Prepared rows of data.";
                                   Log INFO "Analyzing routes for changes..."])%list,
                 Raised "analyze_routes")
      | Some df' =>
        bind (insert_data w df')
             (fun _ => logger INFO "Route analysis completed and data inserted.")
             (t ++ fetched ++ [Log INFO "Prepared rows of data.";
                               Log INFO "Analyzing routes for changes...";
                               Log INFO "Route analysis completed."])%list
      end
    end.
Proof.
  intros Hq Hne.
  destruct rows as [|r rows]; [done|].
  cbv [run fetch_data try_except bind emit logger raise ret sys_exit lift].
  rewrite Hq. cbv beta iota.
  destruct (prepare_data astype_Int64 to_datetime_coerce astype_uint32 (r :: rows))
    as [df|]; cbv beta iota.
  - destruct (analyze_routes df) as [df'|]; cbv beta iota;
      rewrite <- !List.app_assoc; reflexivity.
  - by rewrite <- !List.app_assoc.
Qed.

(** X13. How a run ends. It exits with status 1 when the source query
    raises; it returns without more ado when the source has no rows; with
    rows, it ends in the exception of [prepare_data] if that raises, and
    otherwise exits with status 1 if the insert raises and returns if it
    does not. The audit file plays no part in it. *)
Theorem run_outcome w t :
  snd (run astype_Int64 to_datetime_coerce astype_uint32 w t)
  = match query_rows w with
    | None => SysExit 1
    | Some [] => Returned tt
    | Some rows =>
      match prepare_data astype_Int64 to_datetime_coerce astype_uint32 rows with
      | None => Raised "prepare_data"
      | Some _ => if insert_df_raises w then SysExit 1 else Returned tt
      end
    end.
Proof.
  destruct (query_rows w) as [[|r rows]|] eqn:Hq.
  - cbv [run fetch_data try_except bind emit logger raise ret sys_exit lift].
    by rewrite Hq.
  - rewrite (run_with_rows w (r :: rows) t Hq) by done.
    destruct (prepare_data astype_Int64 to_datetime_coerce astype_uint32 (r :: rows))
      as [df|]; [|reflexivity].
    rewrite analyze_routes_classified.
    unfold bind. rewrite insert_data_trace.
    by destruct (insert_df_raises w).
  - cbv [run fetch_data try_except bind emit logger raise ret sys_exit lift].
    by rewrite Hq.
Qed.

(** X14. Without rows nothing is prepared, exported or inserted: when the
    source query raises, the run logs the error and exits with status 1;
    when it returns no rows, the run logs a warning and returns. In both
    cases the query is the only call made. *)
Theorem run_without_rows w t :
  (query_rows w = None ->
   run astype_Int64 to_datetime_coerce astype_uint32 w t
   = ((t ++ [Log INFO "Starting route analysis process.";
             Log INFO "Fetching data from ClickHouse...";
             Query "SELECT * FROM new_route_rf WHERE text_route_number_count == '1'";
             Log ERROR "Error fetching data from ClickHouse"])%list,
      SysExit 1))
  /\ (query_rows w = Some [] ->
      run astype_Int64 to_datetime_coerce astype_uint32 w t
      = ((t ++ [Log INFO "Starting route analysis process.";
                Log INFO "Fetching data from ClickHouse...";
                Query "SELECT * FROM new_route_rf WHERE text_route_number_count == '1'";
                Log WARNING "No data found in new_route_rf"])%list,
         Returned tt)).
Proof.
  split; intros Hq;
    cbv [run fetch_data try_except bind emit logger raise ret sys_exit lift];
    rewrite Hq; cbv beta iota; by rewrite <- !List.app_assoc.
Qed.

(** X15. With rows that [prepare_data] accepts, the run exports and
    inserts one and the same frame: the classification of the prepared rows,
    passed through [replace]. The export comes first, and the closing
    message is logged only if the insert returned. *)
Theorem run_writes_classified_frame w rows (df : DataFrame) t :
  query_rows w = Some rows -> rows <> [] ->
  prepare_data astype_Int64 to_datetime_coerce astype_uint32 rows = Some df ->
  exists df',
    analyze_routes df = Some df'
    /\ run astype_Int64 to_datetime_coerce astype_uint32 w t
       = ((t ++ fetched
             ++ [Log INFO "Prepared rows of data.";
                 Log INFO "Analyzing routes for changes...";
                 Log INFO "Route analysis completed.";
                 Log INFO "Inserting data into ClickHouse...";
                 ToCsv "output.csv" (df_replace w df');
                 (if to_csv_raises w
                  then Log ERROR "Error saving DataFrame to file"
                  else Log INFO "DataFrame saved to file");
                 InsertDf table (df_replace w df')]
             ++ (if insert_df_raises w
                 then [Log ERROR "Error inserting data"]
                 else [Log INFO "Data successfully inserted";
                       Log INFO "Route analysis completed and data inserted."]))%list,
          if insert_df_raises w then SysExit 1 else Returned tt).
Proof.
  intros Hq Hne Hprep.
  pose proof (analyze_routes_classified df) as Hrun.
  eexists. split; [exact Hrun|].
  rewrite (run_with_rows w rows t Hq Hne), Hprep, Hrun.
  unfold bind. rewrite insert_data_trace.
  destruct (insert_df_raises w); cbv [logger emit];
    rewrite <- ?List.app_assoc; reflexivity.
Qed.

End RunMore.

(** X16. [save_to_file] never raises and never exits, whatever [to_csv]
    does: it calls [to_csv] once, logs the outcome, and returns. *)
Theorem save_to_file_always_returns w (df : DataFrame) filename t :
  snd (save_to_file w df filename t) = Returned tt
  /\ exists level message,
       fst (save_to_file w df filename t)
       = (t ++ [ToCsv filename df; Log level message])%list
       /\ (level = ERROR <-> to_csv_raises w = true).
Proof.
  rewrite save_to_file_returns. split; [reflexivity|].
  destruct (to_csv_raises w); eexists _, _; (split; [reflexivity|]);
    split; discriminate || reflexivity.
Qed.

(** A source without rows. *)
Lemma run_without_rows_witness :
  snd (run scalar_Int64 iso_date decimal_uint32
           (mkWorld (Some []) (fun df => df) false false) [])
  = Returned tt
  /\ snd (run scalar_Int64 iso_date decimal_uint32
              (mkWorld None (fun df => df) false false) [])
     = SysExit 1.
Proof.
  destruct (run_without_rows scalar_Int64 iso_date decimal_uint32
              (mkWorld (Some []) (fun df => df) false false) [])
    as [_ Hempty].
  destruct (run_without_rows scalar_Int64 iso_date decimal_uint32
              (mkWorld None (fun df => df) false false) [])
    as [Hfail _].
  rewrite (Hempty eq_refl), (Hfail eq_refl). split; reflexivity.
Defined.

(** The fixture of the tests as the rows of the source, the insert
    failing. *)
Lemma run_writes_classified_frame_witness :
  exists df',
    analyze_routes (frame_of (prepare sample_data)) = Some df'
    /\ snd (run scalar_Int64 iso_date decimal_uint32
                (mkWorld (Some sample_data) (fun df => df) false true) [])
       = SysExit 1
    /\ ToCsv "output.csv" df'
       ∈ fst (run scalar_Int64 iso_date decimal_uint32
                  (mkWorld (Some sample_data) (fun df => df) false true) []).
Proof.
  destruct (run_writes_classified_frame scalar_Int64 iso_date decimal_uint32
              (mkWorld (Some sample_data) (fun df => df) false true)
              sample_data (frame_of (prepare sample_data)) []
              eq_refl ltac:(discriminate) eq_refl)
    as (df' & Hrun & Htrace).
  exists df'. split; [exact Hrun|]. rewrite Htrace.
  split; [reflexivity|]. simpl.
  do 9 apply list_elem_of_further. apply list_elem_of_here.
Defined.

(** * Start-up *)

(** The events of a connection that succeeds. *)
Lemma connect_to_db_cases conn t :
  connect_to_db conn t
  = match environ conn !! "HOST", environ conn !! "DATABASE",
          environ conn !! "USERNAME_DB", environ conn !! "PASSWORD" with
    | Some _, Some _, Some _, Some _ =>
      if get_client_raises conn
      then ((t ++ [Log ERROR "Error connection to db"])%list, SysExit 1)
      else if client_query_raises conn "SET allow_experimental_lightweight_delete=1"
      then ((t ++ [Log INFO "Success connected to clickhouse";
                   Query "SET allow_experimental_lightweight_delete=1";
                   Log ERROR "Error connection to db"])%list, SysExit 1)
      else if client_query_raises conn "DELETE FROM new_route WHERE uuid is not NULL"
      then ((t ++ [Log INFO "Success connected to clickhouse";
                   Query "SET allow_experimental_lightweight_delete=1";
                   Query "DELETE FROM new_route WHERE uuid is not NULL";
                   Log ERROR "Error connection to db"])%list, SysExit 1)
      else ((t ++ [Log INFO "Success connected to clickhouse";
                   Query "SET allow_experimental_lightweight_delete=1";
                   Query "DELETE FROM new_route WHERE uuid is not NULL";
                   Log INFO "Success deleted data from new_route"])%list,
            Returned tt)
    | _, _, _, _ => ((t ++ [Log ERROR "Error connection to db"])%list, SysExit 1)
    end.
Proof.
  cbv [connect_to_db try_except bind get_my_env_var get_client client_query
       emit logger raise ret sys_exit].
  destruct (environ conn !! "HOST"); [|reflexivity].
  destruct (environ conn !! "DATABASE"); [|reflexivity].
  destruct (environ conn !! "USERNAME_DB"); [|reflexivity].
  destruct (environ conn !! "PASSWORD"); [|reflexivity].
  destruct (get_client_raises conn); [reflexivity|].
  destruct (client_query_raises conn _); cbv beta iota;
    [by rewrite <- !List.app_assoc|].
  destruct (client_query_raises conn _); cbv beta iota;
    by rewrite <- !List.app_assoc.
Qed.

(** X17. When one of HOST, DATABASE, USERNAME_DB and PASSWORD is missing
    from the environment, whatever the other three hold, [connect_to_db]
    logs one error and exits with status 1: the exception of
    [get_my_env_var] is caught, and no statement is sent, so the table is
    not cleared. *)
Theorem connect_to_db_missing_variable conn name t :
  name ∈ ["HOST"; "DATABASE"; "USERNAME_DB"; "PASSWORD"] ->
  environ conn !! name = None ->
  connect_to_db conn t
  = ((t ++ [Log ERROR "Error connection to db"])%list, SysExit 1).
Proof.
  intros Hname Hmissing. rewrite connect_to_db_cases.
  repeat (apply elem_of_cons in Hname as [->|Hname];
          [rewrite Hmissing;
           repeat match goal with
                  | |- context [match ?x with Some _ => _ | None => _ end] =>
                    destruct x
                  end; reflexivity|]).
  by apply elem_of_nil in Hname.
Qed.

(** X18. [connect_to_db] never raises: it returns or exits with status 1.
    It returns exactly when the four variables are set, [get_client]
    returns and the two statements go through; it has then sent the SET
    statement and after it the DELETE that clears the table, and nothing
    else. When the SET statement raises, no DELETE is sent. *)
Theorem connect_to_db_outcome conn t :
  (snd (connect_to_db conn t) = Returned tt
   \/ snd (connect_to_db conn t) = SysExit 1)
  /\ (snd (connect_to_db conn t) = Returned tt
      <-> (forall name, name ∈ ["HOST"; "DATABASE"; "USERNAME_DB"; "PASSWORD"] ->
                        is_Some (environ conn !! name))
          /\ get_client_raises conn = false
          /\ client_query_raises conn
               "SET allow_experimental_lightweight_delete=1" = false
          /\ client_query_raises conn
               "DELETE FROM new_route WHERE uuid is not NULL" = false)
  /\ (snd (connect_to_db conn t) = Returned tt ->
      fst (connect_to_db conn t)
      = (t ++ [Log INFO "Success connected to clickhouse";
               Query "SET allow_experimental_lightweight_delete=1";
               Query "DELETE FROM new_route WHERE uuid is not NULL";
               Log INFO "Success deleted data from new_route"])%list)
  /\ (client_query_raises conn
        "SET allow_experimental_lightweight_delete=1" = true ->
      Query "DELETE FROM new_route WHERE uuid is not NULL"
        ∈ fst (connect_to_db conn t) ->
      Query "DELETE FROM new_route WHERE uuid is not NULL" ∈ t).
Proof.
  rewrite connect_to_db_cases.
  assert (Hvars : (forall name,
                      name ∈ ["HOST"; "DATABASE"; "USERNAME_DB"; "PASSWORD"] ->
                      is_Some (environ conn !! name))
                  <-> is_Some (environ conn !! "HOST")
                      /\ is_Some (environ conn !! "DATABASE")
                      /\ is_Some (environ conn !! "USERNAME_DB")
                      /\ is_Some (environ conn !! "PASSWORD")).
  { split.
    - intros H. repeat split; apply H; set_solver.
    - intros (H1 & H2 & H3 & H4) name Hname.
      repeat (apply elem_of_cons in Hname as [->|Hname]; [assumption|]).
      by apply elem_of_nil in Hname. }
  rewrite Hvars. clear Hvars.
  assert (Hin : forall es : list event,
             Forall (fun e => e <> Query "DELETE FROM new_route WHERE uuid is not NULL")
                    es ->
             Query "DELETE FROM new_route WHERE uuid is not NULL" ∈ (t ++ es)%list ->
             Query "DELETE FROM new_route WHERE uuid is not NULL" ∈ t).
  { intros es Hes Hin. apply elem_of_app in Hin as [Hin|Hin]; [exact Hin|].
    rewrite Forall_forall in Hes. by destruct (Hes _ Hin). }
  destruct (environ conn !! "HOST") as [host|],
           (environ conn !! "DATABASE") as [database|],
           (environ conn !! "USERNAME_DB") as [username|],
           (environ conn !! "PASSWORD") as [password|],
           (get_client_raises conn),
           (client_query_raises conn
              "SET allow_experimental_lightweight_delete=1"),
           (client_query_raises conn
              "DELETE FROM new_route WHERE uuid is not NULL");
    simpl.
  all: split; [by auto|].
  all: split;
    [split;
     [try discriminate; intros _; repeat split; by eauto
     |intros ((H1 & H2 & H3 & H4) & Hc & Hs & Hd);
      try discriminate;
      try (by destruct H1); try (by destruct H2);
      try (by destruct H3); try (by destruct H4);
      reflexivity]|].
  all: split; [try discriminate; by intros _|].
  all: intros Hset; try discriminate Hset.
  all: apply Hin; repeat constructor; discriminate.
Qed.

(** An environment without USERNAME_DB. *)
Lemma connect_to_db_missing_variable_witness :
  connect_to_db
    (mkConnection
       (<["HOST" := "localhost"]> (<["DATABASE" := "default"]>
          (<["PASSWORD" := "secret"]> ∅)))
       false (fun _ => false)) []
  = ([Log ERROR "Error connection to db"], SysExit 1).
Proof.
  apply (connect_to_db_missing_variable _ "USERNAME_DB" []).
  - do 2 apply list_elem_of_further. apply list_elem_of_here.
  - simpl. by rewrite !lookup_insert_ne, lookup_empty.
Defined.

Lemma connect_to_db_returned conn t :
  snd (connect_to_db conn t) = Returned tt ->
  fst (connect_to_db conn t)
  = (t ++ [Log INFO "Success connected to clickhouse";
           Query "SET allow_experimental_lightweight_delete=1";
           Query "DELETE FROM new_route WHERE uuid is not NULL";
           Log INFO "Success deleted data from new_route"])%list.
Proof.
  rewrite connect_to_db_cases.
  repeat match goal with
         | |- context [match ?x with Some _ => _ | None => _ end] => destruct x
         | |- context [if ?x then _ else _] => destruct x
         end; simpl; intros H; (discriminate H || reflexivity).
Qed.

(** X19. The script connects before it runs: when [connect_to_db] exits,
    the script exits there with the same status, and nothing is fetched,
    exported or inserted; when it returns, the run starts after the events
    of the connection, that is, after the table has been cleared. *)
Theorem main_connects_first
    (astype_Int64 : scalar -> option (option Z))
    (to_datetime_coerce : string -> option date)
    (astype_uint32 : string -> option Z)
    (conn : Connection) (w : World) (t : list event) :
  (snd (connect_to_db conn t) = SysExit 1 ->
   main astype_Int64 to_datetime_coerce astype_uint32 conn w t
   = (fst (connect_to_db conn t), SysExit 1))
  /\ (snd (connect_to_db conn t) = Returned tt ->
      main astype_Int64 to_datetime_coerce astype_uint32 conn w t
      = run astype_Int64 to_datetime_coerce astype_uint32 w
            (t ++ [Log INFO "Success connected to clickhouse";
                   Query "SET allow_experimental_lightweight_delete=1";
                   Query "DELETE FROM new_route WHERE uuid is not NULL";
                   Log INFO "Success deleted data from new_route"])%list).
Proof.
  pose proof (connect_to_db_returned conn t) as Htrace.
  unfold main, bind.
  destruct (connect_to_db conn t) as [t' [[]|e|n]]; simpl in *; split;
    try discriminate.
  - intros _. by rewrite (Htrace eq_refl).
  - by intros [= ->].
Qed.

(** An empty environment, and a connection that succeeds before a source
    without rows. *)
Lemma main_connects_first_witness :
  snd (main scalar_Int64 iso_date decimal_uint32
            (mkConnection ∅ false (fun _ => false))
            (mkWorld (Some sample_data) (fun df => df) false false) [])
  = SysExit 1
  /\ main scalar_Int64 iso_date decimal_uint32
          (mkConnection
             (<["HOST" := "localhost"]> (<["DATABASE" := "default"]>
                (<["USERNAME_DB" := "user"]> (<["PASSWORD" := "secret"]> ∅))))
             false (fun _ => false))
          (mkWorld (Some []) (fun df => df) false false) []
     = ([Log INFO "Success connected to clickhouse";
         Query "SET allow_experimental_lightweight_delete=1";
         Query "DELETE FROM new_route WHERE uuid is not NULL";
         Log INFO "Success deleted data from new_route";
         Log INFO "Starting route analysis process.";
         Log INFO "Fetching data from ClickHouse...";
         Query "SELECT * FROM new_route_rf WHERE text_route_number_count == '1'";
         Log WARNING "No data found in new_route_rf"],
        Returned tt).
Proof.
  split.
  - destruct (main_connects_first scalar_Int64 iso_date decimal_uint32
                (mkConnection ∅ false (fun _ => false))
                (mkWorld (Some sample_data) (fun df => df) false false) [])
      as [Hexit _].
    rewrite Hexit; [reflexivity|].
    rewrite connect_to_db_cases. reflexivity.
  - destruct (main_connects_first scalar_Int64 iso_date decimal_uint32
                (mkConnection
                   (<["HOST" := "localhost"]> (<["DATABASE" := "default"]>
                      (<["USERNAME_DB" := "user"]>
                         (<["PASSWORD" := "secret"]> ∅))))
                   false (fun _ => false))
                (mkWorld (Some []) (fun df => df) false false) [])
      as [_ Hrun].
    rewrite Hrun; [reflexivity|].
    rewrite connect_to_db_cases. simpl.
    rewrite lookup_insert_eq.
    rewrite lookup_insert_ne, lookup_insert_eq by done.
    rewrite !lookup_insert_ne, lookup_insert_eq by done.
    rewrite !lookup_insert_ne, lookup_insert_eq by done.
    reflexivity.
Defined.

(** * Edge cases *)

(** X20. A frame with no row or one row comes back from [analyze_routes]
    as it went in. *)
Theorem analyze_routes_short (df : DataFrame) :
  (length df <= 1)%nat -> analyze_routes df = Some df.
Proof.
  intros Hlen. rewrite analyze_routes_classified. f_equal.
  apply list_eq. intros i. rewrite list_lookup_imap.
  destruct (df !! i) as [c|] eqn:Hi; [|reflexivity].
  apply lookup_lt_Some in Hi.
  assert (i = O) as -> by lia. reflexivity.
Qed.

(** A frame of one row, CHANGED and linked by an earlier pass. *)
Lemma analyze_routes_short_witness :
  analyze_routes
    [mkRow (mkRouteData "М_7" None None None None None None None None None
                        None None None None None None)
           (mkLineage CHANGED (Some "М_3") (Some "") (Some ""))]
  = Some
    [mkRow (mkRouteData "М_7" None None None None None None None None None
                        None None None None None None)
           (mkLineage CHANGED (Some "М_3") (Some "") (Some ""))].
Proof.
  apply analyze_routes_short. simpl. lia.
Defined.

(** X21. [fetch_data] never raises and never returns an empty list of
    rows: it returns the rows of the query when there are some, returns
    [None] when there are none, and exits with status 1 when the query
    raises. *)
Theorem fetch_data_result w t :
  (forall rows, snd (fetch_data w t) = Returned (Some rows)
                <-> query_rows w = Some rows /\ rows <> [])
  /\ (snd (fetch_data w t) = Returned None <-> query_rows w = Some [])
  /\ (snd (fetch_data w t) = SysExit 1 <-> query_rows w = None)
  /\ (forall e, snd (fetch_data w t) <> Raised e).
Proof.
  cbv [fetch_data try_except bind emit logger raise ret sys_exit].
  destruct (query_rows w) as [[|r rows]|]; simpl.
  - split; [intros rows; split; [discriminate|by intros [[= <-] ?]]|].
    split; [done|]. split; [split; discriminate|discriminate].
  - split.
    { intros rows'. split; [by intros [= <-]|by intros [[= <-] _]]. }
    split; [split; discriminate|]. split; [split; discriminate|discriminate].
  - split; [intros rows; split; [discriminate|by intros [? _]]|].
    split; [split; discriminate|]. split; [done|discriminate].
Qed.

(** X22. What [analyze_routes] writes to a row is decided by that row and
    by the input columns of the frame: the lineage the other rows carry, as
    left by an earlier pass or by the run itself, plays no part. *)
Theorem analyze_routes_reads_input_columns (df1 df2 df1' df2' : DataFrame) i :
  data <$> df1 = data <$> df2 ->
  df1 !! i = df2 !! i ->
  analyze_routes df1 = Some df1' ->
  analyze_routes df2 = Some df2' ->
  df1' !! i = df2' !! i.
Proof.
  intros Hdata Hrow H1 H2.
  rewrite (analyze_routes_lookup df1 df1' i H1).
  rewrite (analyze_routes_lookup df2 df2' i H2).
  by rewrite Hdata, Hrow.
Qed.

(** The classified fixture and the prepared fixture have the same input
    columns and the same last row. *)
Lemma analyze_routes_reads_input_columns_witness :
  exists df1' df2',
    analyze_routes (frame_of (prepare sample_data)) = Some df1'
    /\ analyze_routes (frame_of (classify sample_data)) = Some df2'
    /\ df1' !! 4%nat = df2' !! 4%nat.
Proof.
  eexists _, _. split; [apply analyze_routes_classified|].
  split; [apply analyze_routes_classified|].
  apply (analyze_routes_reads_input_columns
           (frame_of (prepare sample_data)) (frame_of (classify sample_data))).
  - reflexivity.
  - reflexivity.
  - apply analyze_routes_classified.
  - apply analyze_routes_classified.
Defined.
